(** * caffe2/operators/local_response_normalization_op_cudnn.cc

    A shallow embedding of the two cuDNN adapters for Local Response
    Normalization, [CuDNNLRNOp] (forward) and [CuDNNLRNGradientOp]
    (backward), together with the properties of their descriptor cache,
    their type dispatch and their construction.

    The numeric kernel lives in cuDNN.  It is represented by the calls the
    operators issue, kept in a log, and by an arbitrary status oracle that
    decides whether each call succeeds. *)

From Stdlib Require Import ZArith List String Bool Lia.
From Stdlib Require Import SpecFloat.
Import ListNotations.
Open Scope Z_scope.

(** ** Element kinds *)

(** Runtime type tag of a tensor's elements ([TypeMeta]).  A tensor that
    was never given storage carries [TM_uninitialized]. *)
Inductive TypeMeta : Type :=
| TM_uninitialized
| TM_float
| TM_float16
| TM_double
| TM_int
| TM_int64
| TM_uint8
| TM_bool.

(** The C++ element types for which [cudnnTypeWrapper] is specialised, the
    possible arguments of the template [DoRunWithType<T, M>]. *)
Inductive CType : Type :=
| c_float
| c_float16
| c_double.

Definition TypeMeta_eq_dec (a b : TypeMeta) : {a = b} + {a <> b}.
Proof. decide equality. Defined.

Definition CType_eq_dec (a b : CType) : {a = b} + {a <> b}.
Proof. decide equality. Defined.

(** [TypeMeta::Make<T>()]. *)
Definition TypeMeta_Make (T : CType) : TypeMeta :=
  match T with
  | c_float => TM_float
  | c_float16 => TM_float16
  | c_double => TM_double
  end.

(** ** Tensors *)

(** A tensor as the operators see it: its shape ([vector<TIndex>], 64-bit
    sizes) and its element kind.  Storage belongs to the framework. *)
Record Tensor : Type := mkTensor {
  dims : list Z;
  meta : TypeMeta
}.

(** [X.IsType<T>()]. *)
Definition IsType (T : CType) (X : Tensor) : bool :=
  if TypeMeta_eq_dec (meta X) (TypeMeta_Make T) then true else false.

Definition INT_MAX : Z := 2147483647.

(** Modelled from the spec: the tensor interface's shape inspection
    ([Tensor::dim32], declared in caffe2/core/tensor.h).  It narrows the
    [i]-th size to [int]; asking for a dimension the tensor does not have,
    or one that does not fit, is an enforcement failure ([None]). *)
Definition dim32 (X : Tensor) (i : nat) : option Z :=
  match nth_error (dims X) i with
  | Some d => if d <? INT_MAX then Some d else None
  | None => None
  end.

(** Modelled from the spec: in-place resize-to-match-another-tensor
    ([Tensor::ResizeLike]): the shape becomes the other tensor's shape, the
    element kind is left alone. *)
Definition ResizeLike (Y src : Tensor) : Tensor :=
  {| dims := dims src; meta := meta Y |}.

(** Modelled from the spec: typed mutable-write pointer
    ([Tensor::mutable_data<T>]): the tensor holds elements of kind [T]
    afterwards, its shape is untouched. *)
Definition mutable_data (T : CType) (Y : Tensor) : Tensor :=
  {| dims := dims Y; meta := TypeMeta_Make T |}.

(** A [T*] handed to cuDNN: the element type the pointer is typed at and
    the tensor whose storage it addresses. *)
Record TypedPtr : Type := mkPtr {
  elem : CType;
  pointee : Tensor
}.

(** ** cuDNN vocabulary *)

Inductive cudnnStatus_t : Type :=
| CUDNN_STATUS_SUCCESS
| CUDNN_STATUS_NOT_INITIALIZED
| CUDNN_STATUS_ALLOC_FAILED
| CUDNN_STATUS_BAD_PARAM
| CUDNN_STATUS_INTERNAL_ERROR
| CUDNN_STATUS_EXECUTION_FAILED
| CUDNN_STATUS_NOT_SUPPORTED.

Inductive cudnnDataType_t : Type :=
| CUDNN_DATA_FLOAT
| CUDNN_DATA_DOUBLE
| CUDNN_DATA_HALF.

Inductive cudnnTensorFormat_t : Type :=
| CUDNN_TENSOR_NCHW
| CUDNN_TENSOR_NHWC.

Inductive StorageOrder : Type :=
| NCHW
| NHWC.

Inductive cudnnLRNMode_t : Type :=
| CUDNN_LRN_CROSS_CHANNEL_DIM1.

(** [cudnnTypeWrapper<T>::type]. *)
Definition cudnnTypeWrapper_type (T : CType) : cudnnDataType_t :=
  match T with
  | c_float => CUDNN_DATA_FLOAT
  | c_float16 => CUDNN_DATA_HALF
  | c_double => CUDNN_DATA_DOUBLE
  end.

Definition GetCudnnTensorFormat (order : StorageOrder) : cudnnTensorFormat_t :=
  match order with
  | NCHW => CUDNN_TENSOR_NCHW
  | NHWC => CUDNN_TENSOR_NHWC
  end.

(** [cudnnTypeWrapper<T>::kOne()] and [kZero()], the blending factors. *)
Inductive Scaling : Type :=
| kOne (T : CType)
| kZero (T : CType).

(** Single-precision values are kept as IEEE 754 data ([spec_float]); no
    arithmetic is ever done on them here. *)
Definition float : Type := spec_float.

(** [(float)0] and [(float)1]. *)
Definition float_0 : float := S754_zero false.
Definition float_1 : float := S754_finite false 8388608 (-23).

(** What a tensor descriptor holds once [cudnnSetTensor4dDescriptor] has
    succeeded on it. *)
Record TensorDesc : Type := mkTensorDesc {
  td_format : cudnnTensorFormat_t;
  td_dataType : cudnnDataType_t;
  td_n : Z;
  td_c : Z;
  td_h : Z;
  td_w : Z
}.

(** What an LRN descriptor holds once [cudnnSetLRNDescriptor] has
    succeeded on it. *)
Record LRNDesc : Type := mkLRNDesc {
  lrnN : Z;
  lrnAlpha : float;
  lrnBeta : float;
  lrnK : float
}.

(** The cuDNN entry points the file calls, with their arguments.  A
    descriptor argument is recorded by its content at the time of the call
    ([None]: created, never set). *)
Inductive cudnnCall : Type :=
| cudnnCreateTensorDescriptor
| cudnnCreateLRNDescriptor
| cudnnSetLRNDescriptor (n : Z) (alpha beta k : float)
| cudnnSetTensor4dDescriptor
    (format : cudnnTensorFormat_t) (dataType : cudnnDataType_t)
    (n c h w : Z)
| cudnnLRNCrossChannelForward
    (normDesc : option LRNDesc) (lrnMode : cudnnLRNMode_t)
    (alpha : Scaling) (xDesc : option TensorDesc) (x : TypedPtr)
    (beta : Scaling) (yDesc : option TensorDesc) (y : TypedPtr)
| cudnnLRNCrossChannelBackward
    (normDesc : option LRNDesc) (lrnMode : cudnnLRNMode_t)
    (alpha : Scaling)
    (yDesc : option TensorDesc) (y : TypedPtr)
    (dyDesc : option TensorDesc) (dy : TypedPtr)
    (xDesc : option TensorDesc) (x : TypedPtr)
    (beta : Scaling) (dxDesc : option TensorDesc) (dx : TypedPtr)
| cudnnDestroyTensorDescriptor
| cudnnDestroyLRNDescriptor.

(** Side effects visible outside the operator, newest first. *)
Inductive Event : Type :=
| VLOG (level : Z) (msg : string)
| Call (c : cudnnCall).

(** ** Exceptions *)

Inductive Exception : Type :=
| Unsupported_input_type          (* CAFFE_THROW("Unsupported input type") *)
| Cudnn_failure (st : cudnnStatus_t)        (* CUDNN_ENFORCE *)
| Enforce_failure (what : string).          (* checks inside the framework *)

Inductive Result (A : Type) : Type :=
| Ok (a : A)
| Throw (e : Exception).
Arguments Ok {A} a.
Arguments Throw {A} e.

(** How a destructor ends.  The destructors are not declared
    [noexcept(false)], so an exception that leaves one of them does not
    propagate: the program is terminated ([std::terminate]). *)
Inductive Teardown : Type :=
| Released
| Terminated (e : Exception).

(** ** Operator arguments *)

Inductive Argument : Type :=
| ArgI (i : Z)
| ArgF (f : float)
| ArgS (s : string).

Definition OperatorDef : Type := list (string * Argument).

Fixpoint find_arg (def : OperatorDef) (name : string) : option Argument :=
  match def with
  | [] => None
  | (k, v) :: rest => if String.eqb k name then Some v else find_arg rest name
  end.

(** Modelled from the spec: the configuration record's named options
    ([OperatorBase::GetSingleArgument<int>]): the default when the option
    is absent, its value when it is an [int], a failed enforcement when
    the option is present with another field or does not fit. *)
Definition GetSingleArgument_int
    (def : OperatorDef) (name : string) (default : Z) : Result Z :=
  match find_arg def name with
  | None => Ok default
  | Some (ArgI i) =>
      if (- INT_MAX - 1 <=? i) && (i <=? INT_MAX) then Ok i
      else Throw (Enforce_failure name)
  | Some _ => Throw (Enforce_failure name)
  end.

(** Modelled from the spec: [OperatorBase::GetSingleArgument<float>]. *)
Definition GetSingleArgument_float
    (def : OperatorDef) (name : string) (default : float) : Result float :=
  match find_arg def name with
  | None => Ok default
  | Some (ArgF f) => Ok f
  | Some _ => Throw (Enforce_failure name)
  end.

(** ** Operator state *)

(** The protected members both classes declare (lines 53-62 and 95-104).
    [cudnn_wrapper_] only supplies the cuDNN handle and is left out.  A
    descriptor handle is represented by what it currently holds. *)
Record Members : Type := mkMembers {
  data_desc_ : option TensorDesc;
  norm_desc_ : option LRNDesc;
  cudnn_input_dims_ : list Z;
  size_ : Z;
  alpha_ : float;
  beta_ : float;
  bias_ : float
}.

(** What an invocation can change: the operator object, the blob behind
    [Output(0)] and the log of side effects. *)
Record State : Type := mkState {
  self : Members;
  Output0 : Tensor;
  log : list Event
}.

(** A small state-and-exception monad.  A thrown exception keeps the state
    reached so far: what was written before a C++ [throw] stays written. *)
Definition M (S A : Type) : Type := S -> Result A * S.

Definition ret {S A : Type} (a : A) : M S A := fun s => (Ok a, s).

Definition throw {S A : Type} (e : Exception) : M S A := fun s => (Throw e, s).

Definition bind {S A B : Type} (m : M S A) (k : A -> M S B) : M S B :=
  fun s =>
    match m s with
    | (Ok a, s') => k a s'
    | (Throw e, s') => (Throw e, s')
    end.

Notation "x <- m ;; k" := (bind m (fun x => k))
  (at level 100, m at next level, right associativity).
Notation "m ;;; k" := (bind m (fun _ => k))
  (at level 100, right associativity).

Definition gets {S A : Type} (f : S -> A) : M S A := fun s => (Ok (f s), s).

Definition modify {S : Type} (f : S -> S) : M S unit := fun s => (Ok tt, f s).

(** A value computed by a framework helper that may have thrown. *)
Definition lift_result {S A : Type} (r : Result A) : M S A := fun s => (r, s).

(** Code that only acts on the log, run inside an invocation. *)
Definition lift_log {A : Type} (m : M (list Event) A) : M State A :=
  fun s =>
    let (r, l) := m (log s) in
    (r, {| self := self s; Output0 := Output0 s; log := l |}).

Definition update_self (f : Members -> Members) : M State unit :=
  modify (fun s => {| self := f (self s); Output0 := Output0 s; log := log s |}).

Definition update_Output0 (f : Tensor -> Tensor) : M State unit :=
  modify (fun s => {| self := self s; Output0 := f (Output0 s); log := log s |}).

Definition set_cudnn_input_dims (d : list Z) (m : Members) : Members :=
  {| data_desc_ := data_desc_ m; norm_desc_ := norm_desc_ m;
     cudnn_input_dims_ := d;
     size_ := size_ m; alpha_ := alpha_ m; beta_ := beta_ m; bias_ := bias_ m |}.

Definition set_data_desc (d : TensorDesc) (m : Members) : Members :=
  {| data_desc_ := Some d; norm_desc_ := norm_desc_ m;
     cudnn_input_dims_ := cudnn_input_dims_ m;
     size_ := size_ m; alpha_ := alpha_ m; beta_ := beta_ m; bias_ := bias_ m |}.

(** An enforcement inside the framework that yields a value or throws. *)
Definition enforce_some {S A : Type} (what : string) (o : option A) : M S A :=
  match o with
  | Some a => ret a
  | None => throw (Enforce_failure what)
  end.

Definition enforce_true {S : Type} (what : string) (b : bool) : M S unit :=
  if b then ret tt else throw (Enforce_failure what).

(** [VLOG(level) << msg]. *)
Definition vlog (level : Z) (msg : string) : M State unit :=
  lift_log (modify (fun l => VLOG level msg :: l)).

(** Conversion of an [int] argument to the [unsigned] parameter [lrnN]. *)
Definition to_unsigned (i : Z) : Z := i mod 2 ^ 32.

Section Operators.

(** cuDNN's verdict on a call, given everything logged before it. *)
Variable cudnn : list Event -> cudnnCall -> cudnnStatus_t.

(** Whether the framework hands out a [const T*] to a tensor's storage:
    the enforcements inside [Tensor::data<T>], which is declared in
    caffe2/core/tensor.h. *)
Variable data_enforce : CType -> Tensor -> bool.

(** [CUDNN_ENFORCE(call)]: the call is issued, and anything but
    [CUDNN_STATUS_SUCCESS] is thrown. *)
Definition CUDNN_ENFORCE (c : cudnnCall) : M (list Event) unit :=
  fun l =>
    match cudnn l c with
    | CUDNN_STATUS_SUCCESS => (Ok tt, Call c :: l)
    | st => (Throw (Cudnn_failure st), Call c :: l)
    end.

(** [X.template data<T>()]. *)
Definition data (T : CType) (X : Tensor) : M State TypedPtr :=
  enforce_true "data" (data_enforce T X) ;;;
  ret {| elem := T; pointee := X |}.

(** [Y->template mutable_data<T>()] on [Output(0)]. *)
Definition Output0_mutable_data (T : CType) : M State TypedPtr :=
  update_Output0 (mutable_data T) ;;;
  Y <- gets Output0 ;;
  ret {| elem := T; pointee := Y |}.

(** *** Construction (lines 28-40 and 70-82)

    Both constructors have the same text: the four arguments are read by
    the member initialisers, then the two descriptors are created and the
    LRN descriptor is set.  [cudnn_input_dims_] starts as the empty vector
    and [data_desc_] is created but not set. *)
Definition construct (operator_def : OperatorDef) : M (list Event) Members :=
  size <- lift_result (GetSingleArgument_int operator_def "size" 0) ;;
  alpha <- lift_result (GetSingleArgument_float operator_def "alpha" float_0) ;;
  beta <- lift_result (GetSingleArgument_float operator_def "beta" float_0) ;;
  bias <- lift_result (GetSingleArgument_float operator_def "bias" float_1) ;;
  CUDNN_ENFORCE cudnnCreateTensorDescriptor ;;;
  CUDNN_ENFORCE cudnnCreateLRNDescriptor ;;;
  CUDNN_ENFORCE (cudnnSetLRNDescriptor (to_unsigned size) alpha beta bias) ;;;
  ret {| data_desc_ := None;
         norm_desc_ := Some {| lrnN := to_unsigned size; lrnAlpha := alpha;
                               lrnBeta := beta; lrnK := bias |};
         cudnn_input_dims_ := [];
         size_ := size; alpha_ := alpha; beta_ := beta; bias_ := bias |}.

Definition CuDNNLRNOp_new : OperatorDef -> M (list Event) Members := construct.

Definition CuDNNLRNGradientOp_new : OperatorDef -> M (list Event) Members :=
  construct.

(** Destructors (lines 42-45 and 84-87): the two destroy calls, each
    under [CUDNN_ENFORCE]; a status thrown by either terminates the
    program there. *)
Definition destroy (l : list Event) : Teardown * list Event :=
  match (CUDNN_ENFORCE cudnnDestroyTensorDescriptor ;;;
         CUDNN_ENFORCE cudnnDestroyLRNDescriptor) l with
  | (Ok _, l') => (Released, l')
  | (Throw e, l') => (Terminated e, l')
  end.

(** *** Reshaping the tensor descriptor (lines 116-132 and 172-188)

    The same statements in both operators, over [X] in the forward one and
    over [dY] in the backward one.  The shape is cached first; the sizes
    are read and the descriptor is set after that.  What a refused
    descriptor call leaves in the descriptor is up to cuDNN; the
    embedding keeps the former content there. *)
Definition reshape_descriptors (T : CType) (X : Tensor) : M State unit :=
  cached <- gets (fun s => cudnn_input_dims_ (self s)) ;;
  if list_eq_dec Z.eq_dec (dims X) cached then ret tt
  else
    vlog 1 "Setting descriptors" ;;;
    update_self (set_cudnn_input_dims (dims X)) ;;;
    C <- enforce_some "dim32" (dim32 X 1) ;;
    H <- enforce_some "dim32" (dim32 X 2) ;;
    W <- enforce_some "dim32" (dim32 X 3) ;;
    N <- enforce_some "dim32" (dim32 X 0) ;;
    lift_log (CUDNN_ENFORCE
      (cudnnSetTensor4dDescriptor
         (GetCudnnTensorFormat NCHW) (cudnnTypeWrapper_type T) N C H W)) ;;;
    update_self
      (set_data_desc
         {| td_format := GetCudnnTensorFormat NCHW;
            td_dataType := cudnnTypeWrapper_type T;
            td_n := N; td_c := C; td_h := H; td_w := W |}).

(** *** Forward operator *)

(** [CuDNNLRNOp::DoRunWithType<T, M>] (lines 110-147).  The template
    parameter [M] does not occur in the body.  C++ leaves the order in
    which the arguments of the compute call are evaluated open; the
    embedding takes them as written.  The order shows in one place only:
    whether [Output(0)] has already been retyped by [mutable_data<T>]
    when a typed read is refused. *)
Definition CuDNNLRNOp_DoRunWithType (T M_ : CType) (X : Tensor) : M State bool :=
  reshape_descriptors T X ;;;
  norm_desc <- gets (fun s => norm_desc_ (self s)) ;;
  data_desc <- gets (fun s => data_desc_ (self s)) ;;
  x <- data T X ;;
  y <- Output0_mutable_data T ;;
  lift_log (CUDNN_ENFORCE
    (cudnnLRNCrossChannelForward
       norm_desc CUDNN_LRN_CROSS_CHANNEL_DIM1
       (kOne T) data_desc x (kZero T) data_desc y)) ;;;
  ret true.

(** The dispatch of [CuDNNLRNOp::RunOnDevice] (lines 149-163), with
    [X = Input(0)], over the member template it instantiates. *)
Definition CuDNNLRNOp_dispatch
    (DoRunWithType : CType -> CType -> Tensor -> M State bool)
    (X : Tensor) : M State bool :=
  update_Output0 (fun Y => ResizeLike Y X) ;;;
  if IsType c_float X then DoRunWithType c_float c_float X
  else if IsType c_float16 X then DoRunWithType c_float16 c_float X
  else throw Unsupported_input_type.

(** [CuDNNLRNOp::RunOnDevice]. *)
Definition CuDNNLRNOp_RunOnDevice : Tensor -> M State bool :=
  CuDNNLRNOp_dispatch CuDNNLRNOp_DoRunWithType.

(** *** Backward operator *)

(** [CuDNNLRNGradientOp::DoRunWithType<T, M>] (lines 165-206), with
    [X = Input(0)], [Y = Input(1)], [dY = Input(2)] and [dX = Output(0)].
    The arguments of the compute call are taken as written, as in the
    forward template. *)
Definition CuDNNLRNGradientOp_DoRunWithType
    (T M_ : CType) (X Y dY : Tensor) : M State bool :=
  reshape_descriptors T dY ;;;
  norm_desc <- gets (fun s => norm_desc_ (self s)) ;;
  data_desc <- gets (fun s => data_desc_ (self s)) ;;
  y <- data T Y ;;
  dy <- data T dY ;;
  x <- data T X ;;
  dx <- Output0_mutable_data T ;;
  lift_log (CUDNN_ENFORCE
    (cudnnLRNCrossChannelBackward
       norm_desc CUDNN_LRN_CROSS_CHANNEL_DIM1
       (kOne T) data_desc y data_desc dy data_desc x
       (kZero T) data_desc dx)) ;;;
  ret true.

(** The dispatch of [CuDNNLRNGradientOp::RunOnDevice] (lines 208-226),
    over the member template it instantiates. *)
Definition CuDNNLRNGradientOp_dispatch
    (DoRunWithType : CType -> CType -> Tensor -> Tensor -> Tensor -> M State bool)
    (X Y dY : Tensor) : M State bool :=
  update_Output0 (fun dX => ResizeLike dX dY) ;;;
  if IsType c_float dY then DoRunWithType c_float c_float X Y dY
  else if IsType c_float16 dY then DoRunWithType c_float16 c_float X Y dY
  else throw Unsupported_input_type.

(** [CuDNNLRNGradientOp::RunOnDevice]. *)
Definition CuDNNLRNGradientOp_RunOnDevice : Tensor -> Tensor -> Tensor -> M State bool :=
  CuDNNLRNGradientOp_dispatch CuDNNLRNGradientOp_DoRunWithType.

End Operators.

(** ** Vocabulary of the statements *)

(** The events logged between two states of one run, newest first. *)
Definition issued (before after : State) : list Event :=
  firstn (List.length (log after) - List.length (log before)) (log after).

(** A layout-descriptor rebuild shows as the "Setting descriptors" log line
    and as the call that sets the descriptor. *)
Definition is_set_layout (e : Event) : bool :=
  match e with
  | VLOG _ msg => String.eqb msg "Setting descriptors"
  | Call (cudnnSetTensor4dDescriptor _ _ _ _ _ _) => true
  | Call _ => false
  end.

(** The calls that create, set or destroy the LRN descriptor. *)
Definition is_norm_descriptor_call (e : Event) : bool :=
  match e with
  | Call cudnnCreateLRNDescriptor => true
  | Call (cudnnSetLRNDescriptor _ _ _ _) => true
  | Call cudnnDestroyLRNDescriptor => true
  | _ => false
  end.

(** The forward and backward compute entry points. *)
Definition is_compute (e : Event) : bool :=
  match e with
  | Call (cudnnLRNCrossChannelForward _ _ _ _ _ _ _ _) => true
  | Call (cudnnLRNCrossChannelBackward _ _ _ _ _ _ _ _ _ _ _ _) => true
  | _ => false
  end.

Definition is_dim (shape : list Z) (i : nat) (v : Z) : bool :=
  match nth_error shape i with
  | Some d => d =? v
  | None => false
  end.

(** The descriptor holds the batch, channel, height and width of [shape]. *)
Definition desc_reflects (d : option TensorDesc) (shape : list Z) : bool :=
  match d with
  | Some desc =>
      is_dim shape 0 (td_n desc) && is_dim shape 1 (td_c desc) &&
      is_dim shape 2 (td_h desc) && is_dim shape 3 (td_w desc)
  | None => false
  end.

(** The state once [Output(0)] has been resized like [X]. *)
Definition after_resize (X : Tensor) (s : State) : State :=
  {| self := self s; Output0 := ResizeLike (Output0 s) X; log := log s |}.

(** The state once [Output(0)] has been retyped by [mutable_data<T>] and a
    call has been issued. *)
Definition after_call (T : CType) (c : cudnnCall) (s : State) : State :=
  {| self := self s; Output0 := mutable_data T (Output0 s);
     log := Call c :: log s |}.

(** The call [CuDNNLRNOp::DoRunWithType<T, M>] issues from state [s]. *)
Definition forward_call (T : CType) (X : Tensor) (s : State) : cudnnCall :=
  cudnnLRNCrossChannelForward
    (norm_desc_ (self s)) CUDNN_LRN_CROSS_CHANNEL_DIM1
    (kOne T) (data_desc_ (self s)) {| elem := T; pointee := X |}
    (kZero T) (data_desc_ (self s))
    {| elem := T; pointee := mutable_data T (Output0 s) |}.

(** The call [CuDNNLRNGradientOp::DoRunWithType<T, M>] issues from [s]. *)
Definition backward_call (T : CType) (X Y dY : Tensor) (s : State) : cudnnCall :=
  cudnnLRNCrossChannelBackward
    (norm_desc_ (self s)) CUDNN_LRN_CROSS_CHANNEL_DIM1
    (kOne T)
    (data_desc_ (self s)) {| elem := T; pointee := Y |}
    (data_desc_ (self s)) {| elem := T; pointee := dY |}
    (data_desc_ (self s)) {| elem := T; pointee := X |}
    (kZero T) (data_desc_ (self s))
    {| elem := T; pointee := mutable_data T (Output0 s) |}.

(** What [CUDNN_ENFORCE] makes of a status. *)
Definition enforce_status (st : cudnnStatus_t) : Result bool :=
  match st with
  | CUDNN_STATUS_SUCCESS => Ok true
  | _ => Throw (Cudnn_failure st)
  end.

(** What follows the reshape in both [DoRunWithType]s: the typed reads
    (granted or not), then the compute call issued from the state the
    reshape left. *)
Definition finish
    (cudnn : list Event -> cudnnCall -> cudnnStatus_t)
    (T : CType) (granted : bool) (call : State -> cudnnCall)
    (p : Result unit * State) : Result bool * State :=
  match p with
  | (Ok _, s2) =>
      if granted then
        (enforce_status (cudnn (log s2) (call s2)), after_call T (call s2) s2)
      else (Throw (Enforce_failure "data"), s2)
  | (Throw e, s2) => (Throw e, s2)
  end.

(** The element type the dispatch instantiates [T] with. *)
Definition dispatched_type (k : TypeMeta) : option CType :=
  match k with
  | TM_float => Some c_float
  | TM_float16 => Some c_float16
  | _ => None
  end.

(** The reshape block rebuilt the descriptor from the four sizes of [X]:
    state [s2] differs from [s] by the descriptor, by the two rebuild
    events, and by the cache. *)
Definition rebuilt_from (T : CType) (X : Tensor) (s s2 : State) : Prop :=
  exists N C H W,
    dim32 X 0 = Some N /\ dim32 X 1 = Some C /\
    dim32 X 2 = Some H /\ dim32 X 3 = Some W /\
    data_desc_ (self s2) =
      Some {| td_format := CUDNN_TENSOR_NCHW;
              td_dataType := cudnnTypeWrapper_type T;
              td_n := N; td_c := C; td_h := H; td_w := W |} /\
    log s2 =
      Call (cudnnSetTensor4dDescriptor CUDNN_TENSOR_NCHW
              (cudnnTypeWrapper_type T) N C H W)
      :: VLOG 1 "Setting descriptors" :: log s.

(** Where the operator stands in [s2], right before the compute call of
    an invocation on [X] that started in [s]. *)
Definition fresh_at_call (T : CType) (X : Tensor) (s s2 : State) : Prop :=
  cudnn_input_dims_ (self s2) = dims X /\
  (dims X <> cudnn_input_dims_ (self s) -> rebuilt_from T X s s2) /\
  (dims X = cudnn_input_dims_ (self s) -> s2 = s) /\
  (dims X <> cudnn_input_dims_ (self s) \/
   desc_reflects (data_desc_ (self s)) (cudnn_input_dims_ (self s)) = true ->
   desc_reflects (data_desc_ (self s2)) (dims X) = true).

(** The element kinds the dispatch accepts. *)
Definition supported (k : TypeMeta) : bool :=
  match k with
  | TM_float | TM_float16 => true
  | _ => false
  end.

(** A cuDNN that accepts every call, and a framework whose typed read
    enforces the element kind, as [Tensor::data<T>] does with
    [IsType<T>()]: it hands out a [T*] exactly to tensors of kind [T]. *)
Definition cudnn_accepts : list Event -> cudnnCall -> cudnnStatus_t :=
  fun _ _ => CUDNN_STATUS_SUCCESS.

Definition data_checked : CType -> Tensor -> bool := IsType.

(** ** Sample operators and inputs *)

(** An operator defined with a window of five and the other options left
    to their defaults, as the constructor leaves it under [cudnn_accepts]. *)
Definition lrn_def : OperatorDef := [("size"%string, ArgI 5)].

Definition lrn_members : Members :=
  {| data_desc_ := None;
     norm_desc_ := Some {| lrnN := 5; lrnAlpha := float_0;
                           lrnBeta := float_0; lrnK := float_1 |};
     cudnn_input_dims_ := [];
     size_ := 5; alpha_ := float_0; beta_ := float_0; bias_ := float_1 |}.

Definition lrn_construction_log : list Event :=
  [Call (cudnnSetLRNDescriptor 5 float_0 float_0 float_1);
   Call cudnnCreateLRNDescriptor;
   Call cudnnCreateTensorDescriptor].

(** An output blob nobody has written yet. *)
Definition blank : Tensor := {| dims := []; meta := TM_uninitialized |}.

(** The operator right after construction. *)
Definition lrn_started : State :=
  {| self := lrn_members; Output0 := blank; log := lrn_construction_log |}.

Definition batch_2_8_4_4 : Tensor := {| dims := [2; 8; 4; 4]; meta := TM_float |}.
Definition half_2_8_4_4 : Tensor := {| dims := [2; 8; 4; 4]; meta := TM_float16 |}.
Definition batch_4_8_4_4 : Tensor := {| dims := [4; 8; 4; 4]; meta := TM_float |}.
Definition ints_2_8_4_4 : Tensor := {| dims := [2; 8; 4; 4]; meta := TM_int |}.
Definition scalar_float : Tensor := {| dims := []; meta := TM_float |}.

Definition half_1_4_2_2 : Tensor := {| dims := [1; 4; 2; 2]; meta := TM_float16 |}.
Definition empty_0_8_4_4 : Tensor := {| dims := [0; 8; 4; 4]; meta := TM_float |}.

(** A cuDNN that refuses a tensor descriptor with a size that is not
    positive and accepts every other call. *)
Definition cudnn_sized : list Event -> cudnnCall -> cudnnStatus_t :=
  fun _ c =>
    match c with
    | cudnnSetTensor4dDescriptor _ _ n c h w =>
        if (0 <? n) && (0 <? c) && (0 <? h) && (0 <? w)
        then CUDNN_STATUS_SUCCESS else CUDNN_STATUS_BAD_PARAM
    | _ => CUDNN_STATUS_SUCCESS
    end.

(** The state a first forward invocation on [batch_2_8_4_4] leaves. *)
Definition lrn_after_batch : State :=
  snd (CuDNNLRNOp_RunOnDevice cudnn_accepts data_checked batch_2_8_4_4 lrn_started).

(** The state the reshape leaves in that first invocation, and the call
    issued from it. *)
Definition lrn_reshaped : State :=
  snd (reshape_descriptors cudnn_accepts c_float batch_2_8_4_4
         (after_resize batch_2_8_4_4 lrn_started)).

Definition lrn_first_call : cudnnCall :=
  forward_call c_float batch_2_8_4_4 lrn_reshaped.


(** ** Vocabulary of the further properties *)

(** The calls that create or destroy a descriptor. *)
Definition is_lifecycle_call (e : Event) : bool :=
  match e with
  | Call cudnnCreateTensorDescriptor => true
  | Call cudnnCreateLRNDescriptor => true
  | Call cudnnDestroyTensorDescriptor => true
  | Call cudnnDestroyLRNDescriptor => true
  | _ => false
  end.

(** The call that sets the layout descriptor. *)
Definition is_set_tensor_call (e : Event) : bool :=
  match e with
  | Call (cudnnSetTensor4dDescriptor _ _ _ _ _ _) => true
  | _ => false
  end.

(** The cache and the layout descriptor agree: either nothing was cached
    and the descriptor was never set, or the descriptor holds the first
    four sizes of the cached shape. *)
Definition cache_coherent (m : Members) : bool :=
  match cudnn_input_dims_ m, data_desc_ m with
  | [], None => true
  | shape, d => desc_reflects d shape
  end.

(** A cuDNN that cannot create LRN descriptors. *)
Definition cudnn_no_lrn : list Event -> cudnnCall -> cudnnStatus_t :=
  fun _ c =>
    match c with
    | cudnnCreateLRNDescriptor => CUDNN_STATUS_ALLOC_FAILED
    | _ => CUDNN_STATUS_SUCCESS
    end.

(** A cuDNN that refuses to destroy tensor descriptors. *)
Definition cudnn_no_destroy : list Event -> cudnnCall -> cudnnStatus_t :=
  fun _ c =>
    match c with
    | cudnnDestroyTensorDescriptor => CUDNN_STATUS_BAD_PARAM
    | _ => CUDNN_STATUS_SUCCESS
    end.

(** Two inputs of rank five that share their first four sizes. *)
Definition video_2_8_4_4_3 : Tensor := {| dims := [2; 8; 4; 4; 3]; meta := TM_float |}.
Definition video_2_8_4_4_7 : Tensor := {| dims := [2; 8; 4; 4; 7]; meta := TM_float |}.

(** ** Facts about the embedding *)

Lemma issued_app (s s' : State) (evs : list Event) :
  log s' = evs ++ log s -> issued s s' = evs.
Proof.
  intros E. unfold issued. rewrite E, length_app.
  replace (List.length evs + List.length (log s) - List.length (log s))%nat
    with (List.length evs + 0)%nat by lia.
  rewrite firstn_app_2. cbn. apply app_nil_r.
Qed.

Lemma issued_same_log (s s' : State) : log s' = log s -> issued s s' = [].
Proof. intros E. apply (issued_app s s' []). exact E. Qed.

Ltac run_unfold :=
  unfold CuDNNLRNOp_RunOnDevice, CuDNNLRNGradientOp_RunOnDevice,
    CuDNNLRNOp_dispatch, CuDNNLRNGradientOp_dispatch,
    CuDNNLRNOp_DoRunWithType, CuDNNLRNGradientOp_DoRunWithType,
    reshape_descriptors, data, Output0_mutable_data, vlog,
    enforce_some, enforce_true, lift_log, lift_result, CUDNN_ENFORCE,
    update_self, update_Output0, modify, gets, bind, ret, throw in *.

Ltac case_step :=
  match goal with
  | |- context [list_eq_dec ?d ?a ?b] => destruct (list_eq_dec d a b)
  | |- context [dim32 ?X ?i] =>
      let E := fresh "Hdim" in destruct (dim32 X i) eqn:E
  | |- context [match ?c ?l ?e with CUDNN_STATUS_SUCCESS => _ | _ => _ end] =>
      let E := fresh "Hst" in destruct (c l e) eqn:E
  | |- context [if ?de ?T ?X then _ else _] =>
      let E := fresh "Hde" in destruct (de T X) eqn:E
  end; cbn.

Section Facts.

Variable cudnn : list Event -> cudnnCall -> cudnnStatus_t.
Variable data_enforce : CType -> Tensor -> bool.

(** A cache hit leaves everything as it was. *)
Lemma reshape_hit (T : CType) (X : Tensor) (s : State) :
  dims X = cudnn_input_dims_ (self s) ->
  reshape_descriptors cudnn T X s = (Ok tt, s).
Proof.
  intros E. run_unfold. cbn. destruct (list_eq_dec Z.eq_dec _ _); [|contradiction].
  reflexivity.
Qed.

(** A cache miss that does not throw has read the four sizes, has had the
    descriptor call accepted, and leaves exactly the new cache, the new
    descriptor and the two events. *)
Lemma reshape_miss_ok (T : CType) (X : Tensor) (s : State) :
  dims X <> cudnn_input_dims_ (self s) ->
  fst (reshape_descriptors cudnn T X s) = Ok tt ->
  exists N C H W,
    dim32 X 0 = Some N /\ dim32 X 1 = Some C /\
    dim32 X 2 = Some H /\ dim32 X 3 = Some W /\
    reshape_descriptors cudnn T X s =
      (Ok tt,
       {| self :=
            set_data_desc
              {| td_format := CUDNN_TENSOR_NCHW;
                 td_dataType := cudnnTypeWrapper_type T;
                 td_n := N; td_c := C; td_h := H; td_w := W |}
              (set_cudnn_input_dims (dims X) (self s));
          Output0 := Output0 s;
          log := Call (cudnnSetTensor4dDescriptor CUDNN_TENSOR_NCHW
                         (cudnnTypeWrapper_type T) N C H W)
                 :: VLOG 1 "Setting descriptors" :: log s |}).
Proof.
  intros NE. run_unfold. cbn.
  destruct (list_eq_dec Z.eq_dec _ _); [contradiction|]. cbn.
  repeat case_step; intros R; try discriminate R.
  eexists _, _, _, _. repeat split; reflexivity.
Qed.

(** Whatever happens, the shape is cached, nothing but the cache and the
    tensor descriptor is written, and only rebuild events are logged. *)
Lemma reshape_frame (T : CType) (X : Tensor) (s : State) :
  let s' := snd (reshape_descriptors cudnn T X s) in
  cudnn_input_dims_ (self s') = dims X /\
  norm_desc_ (self s') = norm_desc_ (self s) /\
  size_ (self s') = size_ (self s) /\
  alpha_ (self s') = alpha_ (self s) /\
  beta_ (self s') = beta_ (self s) /\
  bias_ (self s') = bias_ (self s) /\
  Output0 s' = Output0 s /\
  exists evs,
    log s' = evs ++ log s /\
    forallb is_set_layout evs = true /\
    (dims X = cudnn_input_dims_ (self s) -> evs = []).
Proof.
  run_unfold. cbn.
  destruct (list_eq_dec Z.eq_dec _ _) as [E|NE]; cbn.
  - repeat split; auto. exists []. auto.
  - repeat case_step; repeat split; auto;
      first [ exists [VLOG 1 "Setting descriptors"]; repeat split; now auto
            | eexists [Call _; VLOG 1 "Setting descriptors"];
              repeat split; now auto ].
Qed.

(** [CuDNNLRNOp::DoRunWithType] is the reshape followed by the compute
    call, issued from the state the reshape leaves. *)
Lemma forward_DoRunWithType_eq (T M_ : CType) (X : Tensor) (s : State) :
  CuDNNLRNOp_DoRunWithType cudnn data_enforce T M_ X s =
  match reshape_descriptors cudnn T X s with
  | (Ok _, s2) =>
      if data_enforce T X then
        (enforce_status (cudnn (log s2) (forward_call T X s2)),
         after_call T (forward_call T X s2) s2)
      else (Throw (Enforce_failure "data"), s2)
  | (Throw e, s2) => (Throw e, s2)
  end.
Proof.
  unfold CuDNNLRNOp_DoRunWithType, bind at 1.
  destruct (reshape_descriptors cudnn T X s) as [[u|e] s2]; [|reflexivity].
  run_unfold. cbn. destruct (data_enforce T X); cbn; [|reflexivity].
  unfold forward_call, after_call, enforce_status. cbn.
  destruct (cudnn _ _); reflexivity.
Qed.

Lemma backward_DoRunWithType_eq (T M_ : CType) (X Y dY : Tensor) (s : State) :
  CuDNNLRNGradientOp_DoRunWithType cudnn data_enforce T M_ X Y dY s =
  match reshape_descriptors cudnn T dY s with
  | (Ok _, s2) =>
      if data_enforce T Y then
        if data_enforce T dY then
          if data_enforce T X then
            (enforce_status (cudnn (log s2) (backward_call T X Y dY s2)),
             after_call T (backward_call T X Y dY s2) s2)
          else (Throw (Enforce_failure "data"), s2)
        else (Throw (Enforce_failure "data"), s2)
      else (Throw (Enforce_failure "data"), s2)
  | (Throw e, s2) => (Throw e, s2)
  end.
Proof.
  unfold CuDNNLRNGradientOp_DoRunWithType, bind at 1.
  destruct (reshape_descriptors cudnn T dY s) as [[u|e] s2]; [|reflexivity].
  run_unfold. cbn.
  destruct (data_enforce T Y); cbn; [|reflexivity].
  destruct (data_enforce T dY); cbn; [|reflexivity].
  destruct (data_enforce T X); cbn; [|reflexivity].
  unfold backward_call, after_call, enforce_status. cbn.
  destruct (cudnn _ _); reflexivity.
Qed.

Lemma forward_DoRunWithType_finish (T M_ : CType) (X : Tensor) (s : State) :
  CuDNNLRNOp_DoRunWithType cudnn data_enforce T M_ X s =
  finish cudnn T (data_enforce T X) (forward_call T X)
    (reshape_descriptors cudnn T X s).
Proof. rewrite forward_DoRunWithType_eq. reflexivity. Qed.

Lemma backward_DoRunWithType_finish (T M_ : CType) (X Y dY : Tensor) (s : State) :
  CuDNNLRNGradientOp_DoRunWithType cudnn data_enforce T M_ X Y dY s =
  finish cudnn T (data_enforce T Y && data_enforce T dY && data_enforce T X)
    (backward_call T X Y dY) (reshape_descriptors cudnn T dY s).
Proof.
  rewrite backward_DoRunWithType_eq. unfold finish.
  destruct (reshape_descriptors cudnn T dY s) as [[u|e] s2]; [|reflexivity].
  destruct (data_enforce T Y), (data_enforce T dY), (data_enforce T X);
    reflexivity.
Qed.

Lemma set_layout_not_compute (e : Event) :
  is_set_layout e = true -> is_compute e = false.
Proof. destruct e as [l m|c]; [reflexivity|]. destruct c; cbn; congruence. Qed.

(** The shape of every run of a reshape followed by a compute call: the
    reshape logs only rebuild events (none on a cache hit) and caches the
    shape; then either the call is issued from the state the reshape left,
    or the run throws in that state. *)
Lemma finish_reshape_cases
    (T : CType) (key : Tensor) (granted : bool) (call : State -> cudnnCall)
    (s : State) :
  exists (u : Result unit) (s2 : State) (evs : list Event),
    reshape_descriptors cudnn T key s = (u, s2) /\
    log s2 = evs ++ log s /\
    forallb is_set_layout evs = true /\
    (dims key = cudnn_input_dims_ (self s) -> evs = []) /\
    cudnn_input_dims_ (self s2) = dims key /\
    Output0 s2 = Output0 s /\
    ((u = Ok tt /\ granted = true /\
      finish cudnn T granted call (reshape_descriptors cudnn T key s) =
        (enforce_status (cudnn (log s2) (call s2)),
         after_call T (call s2) s2)) \/
     (exists e,
        finish cudnn T granted call (reshape_descriptors cudnn T key s) =
          (Throw e, s2) /\
        e <> Unsupported_input_type /\
        (u = Ok tt -> granted = false))).
Proof.
  pose proof (reshape_frame T key s) as F. cbn zeta in F.
  destruct (reshape_descriptors cudnn T key s) as [u s2] eqn:R. cbn [snd] in F.
  destruct F as (Hc & _ & _ & _ & _ & _ & Ho & evs & Hl & Hs & Hh).
  exists u, s2, evs. repeat (split; [assumption || reflexivity|]).
  unfold finish. destruct u as [[]|e].
  - destruct granted.
    + left. auto.
    + right. eexists. split; [reflexivity|]. split; [discriminate|reflexivity].
  - right. exists e. split; [reflexivity|]. split; [|discriminate].
    intros ->. revert R. run_unfold. cbn.
    destruct (list_eq_dec Z.eq_dec _ _); cbn; [discriminate|].
    repeat case_step; discriminate.
Qed.

(** A cache miss logs the "Setting descriptors" line first. *)
Lemma reshape_miss_logged (T : CType) (X : Tensor) (s : State) :
  dims X <> cudnn_input_dims_ (self s) ->
  exists evs,
    log (snd (reshape_descriptors cudnn T X s)) =
    evs ++ VLOG 1 "Setting descriptors" :: log s.
Proof.
  intros NE. run_unfold. cbn.
  destruct (list_eq_dec Z.eq_dec _ _); [contradiction|]. cbn.
  repeat case_step; first [ now exists [] | now eexists [_] ].
Qed.


Lemma dim32_is_dim (X : Tensor) (i : nat) (v : Z) :
  dim32 X i = Some v -> is_dim (dims X) i v = true.
Proof.
  unfold dim32, is_dim. destruct (nth_error (dims X) i) as [d|]; [|discriminate].
  destruct (d <? INT_MAX); [|discriminate].
  intros E. injection E as ->. apply Z.eqb_refl.
Qed.

Lemma reshape_fresh (T : CType) (X : Tensor) (s s2 : State) :
  reshape_descriptors cudnn T X s = (Ok tt, s2) -> fresh_at_call T X s s2.
Proof.
  intros R. unfold fresh_at_call.
  destruct (list_eq_dec Z.eq_dec (dims X) (cudnn_input_dims_ (self s))) as [E|NE].
  - rewrite (reshape_hit T X s E) in R. injection R as <-.
    repeat split; auto; try contradiction.
    intros [NE|D]; [contradiction|]. rewrite E. exact D.
  - destruct (reshape_miss_ok T X s NE) as (N & C & H & W & H0 & H1 & H2 & H3 & R').
    { rewrite R. reflexivity. }
    rewrite R in R'. injection R' as ->. cbn.
    repeat split; try contradiction.
    + intros _. exists N, C, H, W. cbn. auto 10.
    + intros _. cbn.
      rewrite (dim32_is_dim _ _ _ H0), (dim32_is_dim _ _ _ H1),
        (dim32_is_dim _ _ _ H2), (dim32_is_dim _ _ _ H3). reflexivity.
Qed.

(** A compute call logged by a run was issued by its last step, from the
    state a successful reshape left. *)
Lemma finish_compute_issued
    (T : CType) (key : Tensor) (granted : bool) (call : State -> cudnnCall)
    (s0 s : State) (c : cudnnCall) :
  log s = log s0 ->
  In (Call c)
    (issued s0 (snd (finish cudnn T granted call
                       (reshape_descriptors cudnn T key s)))) ->
  is_compute (Call c) = true ->
  exists s2,
    reshape_descriptors cudnn T key s = (Ok tt, s2) /\
    granted = true /\ c = call s2 /\
    finish cudnn T granted call (reshape_descriptors cudnn T key s) =
      (enforce_status (cudnn (log s2) (call s2)), after_call T (call s2) s2).
Proof.
  intros L HIn Hc.
  destruct (finish_reshape_cases T key granted call s)
    as (u & s2 & evs & R & Hl & Hs & _ & _ & _ & [(Hu & Hg & F)|(e & F & _)]).
  - rewrite F in HIn |- *. cbn [snd] in HIn.
    rewrite (issued_app s0 _ (Call (call s2) :: evs)) in HIn
      by (cbn; rewrite Hl, L; reflexivity).
    destruct HIn as [E|HIn].
    + injection E as E. subst u. exists s2. auto.
    + rewrite forallb_forall in Hs. apply Hs in HIn.
      apply set_layout_not_compute in HIn. congruence.
  - rewrite F in HIn. cbn [snd] in HIn.
    rewrite (issued_app s0 s2 evs) in HIn by (rewrite Hl, L; reflexivity).
    rewrite forallb_forall in Hs. apply Hs in HIn.
    apply set_layout_not_compute in HIn. congruence.
Qed.

(** The steps after the reshape write no member and keep the shape of
    [Output(0)]. *)
Lemma finish_self
    (T : CType) (granted : bool) (call : State -> cudnnCall)
    (p : Result unit * State) :
  self (snd (finish cudnn T granted call p)) = self (snd p).
Proof.
  unfold finish. destruct p as [[u|e] s2]; [|reflexivity].
  destruct granted; reflexivity.
Qed.

Lemma finish_Output0_dims
    (T : CType) (granted : bool) (call : State -> cudnnCall)
    (p : Result unit * State) :
  dims (Output0 (snd (finish cudnn T granted call p))) = dims (Output0 (snd p)).
Proof.
  unfold finish. destruct p as [[u|e] s2]; [|reflexivity].
  destruct granted; reflexivity.
Qed.

(** What a run logs: rebuild events (none on a cache hit), then at most
    the compute call. *)
Lemma finish_issued
    (T : CType) (key : Tensor) (granted : bool) (call : State -> cudnnCall)
    (s0 s : State) :
  log s = log s0 ->
  exists evs,
    forallb is_set_layout evs = true /\
    (dims key = cudnn_input_dims_ (self s) -> evs = []) /\
    (issued s0 (snd (finish cudnn T granted call
                       (reshape_descriptors cudnn T key s))) = evs \/
     exists s2,
       reshape_descriptors cudnn T key s = (Ok tt, s2) /\
       granted = true /\
       issued s0 (snd (finish cudnn T granted call
                         (reshape_descriptors cudnn T key s))) =
         Call (call s2) :: evs).
Proof.
  intros L.
  destruct (finish_reshape_cases T key granted call s)
    as (u & s2 & evs & R & Hl & Hs & Hh & _ & _ & [(Hu & Hg & F)|(e & F & _)]);
    exists evs; (split; [exact Hs|]); (split; [exact Hh|]); rewrite F; cbn [snd].
  - right. exists s2. subst u. repeat split; auto.
    apply issued_app. cbn. rewrite Hl, L. reflexivity.
  - left. apply issued_app. rewrite Hl, L. reflexivity.
Qed.

(** The dispatch, spelled by the element kind it tests. *)
Lemma forward_dispatch_eq
    (k : CType -> CType -> Tensor -> M State bool) (X : Tensor) (s : State) :
  CuDNNLRNOp_dispatch k X s =
  match meta X with
  | TM_float => k c_float c_float X (after_resize X s)
  | TM_float16 => k c_float16 c_float X (after_resize X s)
  | _ => (Throw Unsupported_input_type, after_resize X s)
  end.
Proof.
  unfold CuDNNLRNOp_dispatch, IsType, after_resize.
  unfold update_Output0, modify, bind, throw. cbn.
  destruct (meta X); reflexivity.
Qed.

Lemma backward_dispatch_eq
    (k : CType -> CType -> Tensor -> Tensor -> Tensor -> M State bool)
    (X Y dY : Tensor) (s : State) :
  CuDNNLRNGradientOp_dispatch k X Y dY s =
  match meta dY with
  | TM_float => k c_float c_float X Y dY (after_resize dY s)
  | TM_float16 => k c_float16 c_float X Y dY (after_resize dY s)
  | _ => (Throw Unsupported_input_type, after_resize dY s)
  end.
Proof.
  unfold CuDNNLRNGradientOp_dispatch, IsType, after_resize.
  unfold update_Output0, modify, bind, throw. cbn.
  destruct (meta dY); reflexivity.
Qed.

End Facts.

(** ** The descriptor cache *)

Section Cache.

Variable cudnn : list Event -> cudnnCall -> cudnnStatus_t.
Variable data_enforce : CType -> Tensor -> bool.

(** C1 (as amended).  Whenever an invocation issues the compute call, the
    call is issued from the state [s2] a successful reshape left, and in
    that state: the cached shape is the shape of [X] (of [dY] in the
    backward operator); if that shape differed from the cached one on
    entry, the descriptor was rebuilt from its batch, channel, height and
    width, the rebuild being logged before the call; if it did not differ,
    nothing was touched; and the descriptor holds the four sizes of the
    current shape provided it was rebuilt or it held the cached shape on
    entry. *)
Theorem compute_call_sees_current_shape :
  (forall (X : Tensor) (s : State) (c : cudnnCall),
     In (Call c) (issued s (snd (CuDNNLRNOp_RunOnDevice cudnn data_enforce X s))) ->
     is_compute (Call c) = true ->
     exists T s2,
       dispatched_type (meta X) = Some T /\
       reshape_descriptors cudnn T X (after_resize X s) = (Ok tt, s2) /\
       c = forward_call T X s2 /\
       log (snd (CuDNNLRNOp_RunOnDevice cudnn data_enforce X s)) = Call c :: log s2 /\
       fresh_at_call T X (after_resize X s) s2) /\
  (forall (X Y dY : Tensor) (s : State) (c : cudnnCall),
     In (Call c)
       (issued s (snd (CuDNNLRNGradientOp_RunOnDevice cudnn data_enforce X Y dY s))) ->
     is_compute (Call c) = true ->
     exists T s2,
       dispatched_type (meta dY) = Some T /\
       reshape_descriptors cudnn T dY (after_resize dY s) = (Ok tt, s2) /\
       c = backward_call T X Y dY s2 /\
       log (snd (CuDNNLRNGradientOp_RunOnDevice cudnn data_enforce X Y dY s)) =
         Call c :: log s2 /\
       fresh_at_call T dY (after_resize dY s) s2).
Proof.
  split.
  - intros X s c. unfold CuDNNLRNOp_RunOnDevice.
    rewrite forward_dispatch_eq.
    destruct (meta X) eqn:K; cbn [snd];
      try (rewrite (issued_same_log s (after_resize X s)) by reflexivity;
           intros []);
      rewrite forward_DoRunWithType_finish; intros HIn Hc;
      destruct (finish_compute_issued cudnn _ _ _ _ s (after_resize X s) c
                  eq_refl HIn Hc)
        as (s2 & R & _ & -> & F);
      rewrite F; eexists _, s2;
      (split; [reflexivity|]); (split; [exact R|]); (split; [reflexivity|]);
      (split; [reflexivity|]); apply (reshape_fresh cudnn _ _ _ _ R).
  - intros X Y dY s c. unfold CuDNNLRNGradientOp_RunOnDevice.
    rewrite backward_dispatch_eq.
    destruct (meta dY) eqn:K; cbn [snd];
      try (rewrite (issued_same_log s (after_resize dY s)) by reflexivity;
           intros []);
      rewrite backward_DoRunWithType_finish; intros HIn Hc;
      destruct (finish_compute_issued cudnn _ _ _ _ s (after_resize dY s) c
                  eq_refl HIn Hc)
        as (s2 & R & _ & -> & F);
      rewrite F; eexists _, s2;
      (split; [reflexivity|]); (split; [exact R|]); (split; [reflexivity|]);
      (split; [reflexivity|]); apply (reshape_fresh cudnn _ _ _ _ R).
Qed.

(** After an invocation on a supported element kind the cache holds the
    shape of the input, whether the invocation threw or not. *)
Lemma forward_caches_shape (X : Tensor) (s : State) :
  supported (meta X) = true ->
  cudnn_input_dims_ (self (snd (CuDNNLRNOp_RunOnDevice cudnn data_enforce X s))) =
  dims X.
Proof.
  intros K. unfold CuDNNLRNOp_RunOnDevice. rewrite forward_dispatch_eq.
  destruct (meta X); try discriminate K;
    rewrite forward_DoRunWithType_finish, finish_self;
    apply reshape_frame.
Qed.

(** What a forward invocation logs. *)
Lemma forward_issued (X : Tensor) (s : State) :
  exists evs,
    forallb is_set_layout evs = true /\
    (dims X = cudnn_input_dims_ (self s) -> evs = []) /\
    (issued s (snd (CuDNNLRNOp_RunOnDevice cudnn data_enforce X s)) = evs \/
     exists c,
       is_compute (Call c) = true /\
       issued s (snd (CuDNNLRNOp_RunOnDevice cudnn data_enforce X s)) =
         Call c :: evs).
Proof.
  unfold CuDNNLRNOp_RunOnDevice. rewrite forward_dispatch_eq.
  destruct (meta X);
    try (exists []; repeat split; auto; left; apply issued_same_log; reflexivity);
    rewrite forward_DoRunWithType_finish;
    match goal with
    | |- context [finish cudnn ?T ?g ?call (reshape_descriptors cudnn ?T ?k ?s1)] =>
        destruct (finish_issued cudnn T k g call s s1 eq_refl)
          as (evs & Hs & Hh & [I|(s2 & _ & _ & I)])
    end;
    exists evs; (split; [exact Hs|]); (split; [exact Hh|]); rewrite I;
    [left; reflexivity | right; eexists; split; [|reflexivity]; reflexivity
    |left; reflexivity | right; eexists; split; [|reflexivity]; reflexivity].
Qed.

(** C2.  When an invocation on a supported element kind is followed by an
    invocation on an input of the same shape, the second one logs no
    rebuild event: neither the "Setting descriptors" line nor the call
    that sets the layout descriptor.  And any invocation that logs a
    rebuild event received a shape that differs from the cached one. *)
Theorem same_shape_twice_no_rebuild :
  (forall (X1 X2 : Tensor) (s s1 : State),
     supported (meta X1) = true ->
     dims X2 = dims X1 ->
     self s1 = self (snd (CuDNNLRNOp_RunOnDevice cudnn data_enforce X1 s)) ->
     forallb (fun e => negb (is_set_layout e))
       (issued s1 (snd (CuDNNLRNOp_RunOnDevice cudnn data_enforce X2 s1))) = true) /\
  (forall (X : Tensor) (s : State) (e : Event),
     In e (issued s (snd (CuDNNLRNOp_RunOnDevice cudnn data_enforce X s))) ->
     is_set_layout e = true ->
     dims X <> cudnn_input_dims_ (self s)).
Proof.
  split.
  - intros X1 X2 s s1 K D S.
    assert (Hit : dims X2 = cudnn_input_dims_ (self s1)).
    { rewrite S, forward_caches_shape by exact K. exact D. }
    destruct (forward_issued X2 s1) as (evs & _ & Hh & [I|(c & Hc & I)]);
      rewrite I, (Hh Hit); [reflexivity|].
    cbn. destruct c; cbn in Hc |- *; congruence.
  - intros X s e HIn He Hit.
    destruct (forward_issued X s) as (evs & _ & Hh & [I|(c & Hc & I)]);
      rewrite I, (Hh Hit) in HIn.
    + destruct HIn.
    + destruct HIn as [<-|[]]. apply set_layout_not_compute in He. congruence.
Qed.

(** C9.  The cache is keyed on the shape alone.  When an invocation on
    one supported element kind is followed by an invocation on an input of
    the same shape and another supported kind, the second one logs no
    rebuild event and leaves the layout descriptor as it found it; if the
    first invocation rebuilt the descriptor and succeeded, the descriptor
    still carries the first kind's cuDNN data type, which is not the
    second kind's, and the second compute call, if issued, pairs that
    descriptor with pointers typed at the second kind. *)
Theorem same_shape_other_kind_keeps_descriptor
    (X1 X2 : Tensor) (s s1 : State) (T1 T2 : CType) :
  dispatched_type (meta X1) = Some T1 ->
  dispatched_type (meta X2) = Some T2 ->
  meta X1 <> meta X2 ->
  dims X2 = dims X1 ->
  self s1 = self (snd (CuDNNLRNOp_RunOnDevice cudnn data_enforce X1 s)) ->
  forallb (fun e => negb (is_set_layout e))
    (issued s1 (snd (CuDNNLRNOp_RunOnDevice cudnn data_enforce X2 s1))) = true /\
  data_desc_ (self (snd (CuDNNLRNOp_RunOnDevice cudnn data_enforce X2 s1))) =
    data_desc_ (self s1) /\
  (dims X1 <> cudnn_input_dims_ (self s) ->
   fst (CuDNNLRNOp_RunOnDevice cudnn data_enforce X1 s) = Ok true ->
   exists d,
     data_desc_ (self (snd (CuDNNLRNOp_RunOnDevice cudnn data_enforce X2 s1))) =
       Some d /\
     td_dataType d = cudnnTypeWrapper_type T1 /\
     td_dataType d <> cudnnTypeWrapper_type T2 /\
     forall c,
       In (Call c)
         (issued s1 (snd (CuDNNLRNOp_RunOnDevice cudnn data_enforce X2 s1))) ->
       c = cudnnLRNCrossChannelForward
             (norm_desc_ (self s1)) CUDNN_LRN_CROSS_CHANNEL_DIM1
             (kOne T2) (Some d) {| elem := T2; pointee := X2 |}
             (kZero T2) (Some d)
             {| elem := T2;
                pointee := mutable_data T2 (ResizeLike (Output0 s1) X2) |}).
Proof.
  intros K1 K2 NK D S.
  assert (Sup1 : supported (meta X1) = true)
    by (destruct (meta X1); try discriminate K1; reflexivity).
  assert (Hit : dims X2 = cudnn_input_dims_ (self s1)).
  { rewrite S, forward_caches_shape by exact Sup1. exact D. }
  assert (R2 : reshape_descriptors cudnn T2 X2 (after_resize X2 s1) =
               (Ok tt, after_resize X2 s1))
    by (apply reshape_hit; exact Hit).
  assert (E2 : CuDNNLRNOp_RunOnDevice cudnn data_enforce X2 s1 =
               finish cudnn T2 (data_enforce T2 X2) (forward_call T2 X2)
                 (Ok tt, after_resize X2 s1)).
  { unfold CuDNNLRNOp_RunOnDevice. rewrite forward_dispatch_eq.
    destruct (meta X2); try discriminate K2; injection K2 as <-;
      rewrite forward_DoRunWithType_finish, R2; reflexivity. }
  assert (I2 : issued s1 (snd (CuDNNLRNOp_RunOnDevice cudnn data_enforce X2 s1)) = []
               \/ issued s1 (snd (CuDNNLRNOp_RunOnDevice cudnn data_enforce X2 s1)) =
                  [Call (forward_call T2 X2 (after_resize X2 s1))]).
  { rewrite E2. unfold finish. destruct (data_enforce T2 X2); cbn [snd].
    - right. apply issued_app. reflexivity.
    - left. apply issued_same_log. reflexivity. }
  split; [|split].
  - destruct I2 as [-> | ->]; reflexivity.
  - rewrite E2, finish_self. reflexivity.
  - intros Miss Ok1.
    assert (exists d, data_desc_ (self s1) = Some d /\
                      td_dataType d = cudnnTypeWrapper_type T1) as (d & Hd & Ht).
    { rewrite S. revert Ok1. unfold CuDNNLRNOp_RunOnDevice.
      rewrite forward_dispatch_eq.
      destruct (meta X1); try discriminate K1; injection K1 as <-;
        rewrite forward_DoRunWithType_finish, finish_self;
        match goal with
        | |- context [finish cudnn ?T ?g ?call (reshape_descriptors cudnn ?T ?k ?s0)] =>
            destruct (finish_reshape_cases cudnn T k g call s0)
              as (u & s2 & evs & R & _ & _ & _ & _ & _ & [(Hu & _ & F)|(e & F & _)]);
            rewrite F; cbn [fst]; intros E; try discriminate E; subst u;
            destruct (reshape_miss_ok cudnn T k s0 Miss)
              as (N & C & H & W & _ & _ & _ & _ & R');
            [rewrite R; reflexivity|]; rewrite R'; cbn; eexists; split; reflexivity
        end. }
    exists d. split; [rewrite E2, finish_self; exact Hd|].
    split; [exact Ht|]. split.
    + rewrite Ht. intros E. apply NK.
      destruct (meta X1); try discriminate K1; injection K1 as <-;
        destruct (meta X2); try discriminate K2; injection K2 as <-;
        try reflexivity; discriminate E.
    + intros c HIn. destruct I2 as [I|I]; rewrite I in HIn; [destruct HIn|].
      destruct HIn as [E|[]]. injection E as <-.
      unfold forward_call. cbn. rewrite Hd. reflexivity.
Qed.

End Cache.

(** ** Type dispatch and the output shape *)

Section Dispatch.

Variable cudnn : list Event -> cudnnCall -> cudnnStatus_t.
Variable data_enforce : CType -> Tensor -> bool.

Lemma enforce_status_not_unsupported (st : cudnnStatus_t) :
  enforce_status st <> Throw Unsupported_input_type.
Proof. destruct st; discriminate. Qed.

(** Past the dispatch, the unsupported-type error cannot arise. *)
Lemma finish_not_unsupported
    (T : CType) (key : Tensor) (granted : bool) (call : State -> cudnnCall)
    (s : State) :
  fst (finish cudnn T granted call (reshape_descriptors cudnn T key s)) <>
  Throw Unsupported_input_type.
Proof.
  destruct (finish_reshape_cases cudnn T key granted call s)
    as (u & s2 & evs & _ & _ & _ & _ & _ & _ & [(_ & _ & F)|(e & F & Ne & _)]);
    rewrite F; cbn [fst].
  - apply enforce_status_not_unsupported.
  - congruence.
Qed.

(** The output has the shape of the input after every forward invocation,
    whatever its outcome. *)
Lemma forward_output_dims (X : Tensor) (s : State) :
  dims (Output0 (snd (CuDNNLRNOp_RunOnDevice cudnn data_enforce X s))) = dims X.
Proof.
  unfold CuDNNLRNOp_RunOnDevice. rewrite forward_dispatch_eq.
  destruct (meta X); try reflexivity;
    rewrite forward_DoRunWithType_finish, finish_Output0_dims;
    pose proof (reshape_frame cudnn) as F; cbn zeta in F;
    match goal with
    | |- context [reshape_descriptors cudnn ?T ?k ?s1] =>
        destruct (F T k s1) as (_ & _ & _ & _ & _ & _ & -> & _)
    end; reflexivity.
Qed.

(** C3 (as amended).  On an input whose element kind is neither
    single-precision nor half-precision float the forward operator throws
    the unsupported-type error with no member written (no descriptor work)
    and nothing logged (no cuDNN call); by then it has resized the output
    like the input, and that is the only thing it has done. *)
Theorem unsupported_kind_throws_after_resize (X : Tensor) (s : State) :
  supported (meta X) = false ->
  CuDNNLRNOp_RunOnDevice cudnn data_enforce X s =
  (Throw Unsupported_input_type,
   {| self := self s;
      Output0 := {| dims := dims X; meta := meta (Output0 s) |};
      log := log s |}).
Proof.
  intros K. unfold CuDNNLRNOp_RunOnDevice. rewrite forward_dispatch_eq.
  destruct (meta X); try discriminate K; reflexivity.
Qed.

(** C4.  The forward operator throws the unsupported-type error exactly
    when the element kind of the input is neither single-precision nor
    half-precision float; on those two kinds it runs [DoRunWithType] at
    the corresponding element type, on the resized output. *)
Theorem unsupported_error_iff (X : Tensor) (s : State) :
  (fst (CuDNNLRNOp_RunOnDevice cudnn data_enforce X s) = Throw Unsupported_input_type
   <-> meta X <> TM_float /\ meta X <> TM_float16) /\
  (meta X = TM_float ->
   CuDNNLRNOp_RunOnDevice cudnn data_enforce X s =
   CuDNNLRNOp_DoRunWithType cudnn data_enforce c_float c_float X
     (after_resize X s)) /\
  (meta X = TM_float16 ->
   CuDNNLRNOp_RunOnDevice cudnn data_enforce X s =
   CuDNNLRNOp_DoRunWithType cudnn data_enforce c_float16 c_float X
     (after_resize X s)).
Proof.
  unfold CuDNNLRNOp_RunOnDevice. rewrite forward_dispatch_eq.
  split; [split|split].
  - destruct (meta X); try (intros _; split; discriminate);
      rewrite forward_DoRunWithType_finish; intros E;
      apply finish_not_unsupported in E; destruct E.
  - intros [N1 N2]. destruct (meta X); try reflexivity; congruence.
  - intros ->. reflexivity.
  - intros ->. reflexivity.
Qed.

(** C5.  A successful forward invocation on a rank-4 input of a supported
    element kind leaves the output with the shape of the input; the
    output had been resized like the input when the reshape and the
    compute call [forward_call T X s2] ran, and the call was handed the
    output at that shape. *)
Theorem forward_output_has_input_shape (X : Tensor) (s : State) :
  List.length (dims X) = 4%nat ->
  supported (meta X) = true ->
  fst (CuDNNLRNOp_RunOnDevice cudnn data_enforce X s) = Ok true ->
  dims (Output0 (snd (CuDNNLRNOp_RunOnDevice cudnn data_enforce X s))) = dims X /\
  exists T s2,
    dispatched_type (meta X) = Some T /\
    reshape_descriptors cudnn T X (after_resize X s) = (Ok tt, s2) /\
    Output0 s2 = ResizeLike (Output0 s) X /\
    snd (CuDNNLRNOp_RunOnDevice cudnn data_enforce X s) =
      after_call T (forward_call T X s2) s2 /\
    dims (pointee {| elem := T; pointee := mutable_data T (Output0 s2) |}) =
      dims X.
Proof.
  intros _ K E. split; [apply forward_output_dims|].
  revert E. unfold CuDNNLRNOp_RunOnDevice. rewrite forward_dispatch_eq.
  destruct (meta X); try discriminate K;
    rewrite forward_DoRunWithType_finish;
    match goal with
    | |- context [finish cudnn ?T ?g ?call (reshape_descriptors cudnn ?T ?k ?s1)] =>
        destruct (finish_reshape_cases cudnn T k g call s1)
          as (u & s2 & evs & R & _ & _ & _ & _ & Ho & [(Hu & _ & F)|(e & F & _)])
    end;
    rewrite F; cbn [fst snd]; intros E; try discriminate E;
    subst u; eexists _, s2;
    (split; [reflexivity|]); (split; [exact R|]); (split; [exact Ho|]);
    (split; [reflexivity|]); cbn; rewrite Ho; reflexivity.
Qed.

(** C7.  Whatever the member template does, [RunOnDevice] instantiates
    it at [<float, float>] for single-precision inputs, at
    [<float16, float>] for half-precision inputs, and not at all
    otherwise, in the forward operator (on the kind of [X]) and in the
    backward operator (on the kind of [dY]); so two templates that agree
    at these two instances give the same operator. *)
Theorem dispatch_selects_compute_types :
  (forall (k : CType -> CType -> Tensor -> M State bool) (X : Tensor) (s : State),
     CuDNNLRNOp_dispatch k X s =
     match meta X with
     | TM_float => k c_float c_float X (after_resize X s)
     | TM_float16 => k c_float16 c_float X (after_resize X s)
     | _ => (Throw Unsupported_input_type, after_resize X s)
     end) /\
  (forall (k : CType -> CType -> Tensor -> Tensor -> Tensor -> M State bool)
          (X Y dY : Tensor) (s : State),
     CuDNNLRNGradientOp_dispatch k X Y dY s =
     match meta dY with
     | TM_float => k c_float c_float X Y dY (after_resize dY s)
     | TM_float16 => k c_float16 c_float X Y dY (after_resize dY s)
     | _ => (Throw Unsupported_input_type, after_resize dY s)
     end) /\
  (forall k1 k2 : CType -> CType -> Tensor -> M State bool,
     (forall X s, k1 c_float c_float X s = k2 c_float c_float X s) ->
     (forall X s, k1 c_float16 c_float X s = k2 c_float16 c_float X s) ->
     forall X s, CuDNNLRNOp_dispatch k1 X s = CuDNNLRNOp_dispatch k2 X s) /\
  (forall k1 k2 : CType -> CType -> Tensor -> Tensor -> Tensor -> M State bool,
     (forall X Y dY s, k1 c_float c_float X Y dY s = k2 c_float c_float X Y dY s) ->
     (forall X Y dY s,
        k1 c_float16 c_float X Y dY s = k2 c_float16 c_float X Y dY s) ->
     forall X Y dY s,
       CuDNNLRNGradientOp_dispatch k1 X Y dY s =
       CuDNNLRNGradientOp_dispatch k2 X Y dY s) /\
  CuDNNLRNOp_RunOnDevice cudnn data_enforce =
    CuDNNLRNOp_dispatch (CuDNNLRNOp_DoRunWithType cudnn data_enforce) /\
  CuDNNLRNGradientOp_RunOnDevice cudnn data_enforce =
    CuDNNLRNGradientOp_dispatch (CuDNNLRNGradientOp_DoRunWithType cudnn data_enforce).
Proof.
  split; [exact forward_dispatch_eq|].
  split; [exact backward_dispatch_eq|].
  split; [|split; [|split; reflexivity]].
  - intros k1 k2 H1 H2 X s. rewrite !forward_dispatch_eq.
    destruct (meta X); auto.
  - intros k1 k2 H1 H2 X Y dY s. rewrite !backward_dispatch_eq.
    destruct (meta dY); auto.
Qed.

End Dispatch.

(** ** The backward operator *)

Section Backward.

Variable cudnn : list Event -> cudnnCall -> cudnnStatus_t.
Variable data_enforce : CType -> Tensor -> bool.

(** The backward operator on a supported kind of [dY]: the reshape keyed
    on [dY], then the three typed reads and the compute call. *)
Lemma backward_run_supported (X Y dY : Tensor) (s : State) (T : CType) :
  dispatched_type (meta dY) = Some T ->
  CuDNNLRNGradientOp_RunOnDevice cudnn data_enforce X Y dY s =
  finish cudnn T (data_enforce T Y && data_enforce T dY && data_enforce T X)
    (backward_call T X Y dY)
    (reshape_descriptors cudnn T dY (after_resize dY s)).
Proof.
  intros K. unfold CuDNNLRNGradientOp_RunOnDevice.
  rewrite backward_dispatch_eq.
  destruct (meta dY); try discriminate K; injection K as <-;
    apply backward_DoRunWithType_finish.
Qed.

Lemma backward_run_unsupported (X Y dY : Tensor) (s : State) :
  dispatched_type (meta dY) = None ->
  CuDNNLRNGradientOp_RunOnDevice cudnn data_enforce X Y dY s =
  (Throw Unsupported_input_type, after_resize dY s).
Proof.
  intros K. unfold CuDNNLRNGradientOp_RunOnDevice.
  rewrite backward_dispatch_eq.
  destruct (meta dY); try discriminate K; reflexivity.
Qed.

Lemma supported_dispatched (k : TypeMeta) :
  supported k = true -> exists T, dispatched_type k = Some T.
Proof. destruct k; try discriminate; intros _; eexists; reflexivity. Qed.

(** The members a backward invocation leaves do not depend on [X] and
    [Y]. *)
Lemma backward_self_independent (X Y X' Y' dY : Tensor) (s : State) :
  self (snd (CuDNNLRNGradientOp_RunOnDevice cudnn data_enforce X' Y' dY s)) =
  self (snd (CuDNNLRNGradientOp_RunOnDevice cudnn data_enforce X Y dY s)).
Proof.
  destruct (dispatched_type (meta dY)) as [T|] eqn:K.
  - rewrite !(backward_run_supported _ _ _ _ T K), !finish_self. reflexivity.
  - rewrite !backward_run_unsupported by exact K. reflexivity.
Qed.

(** C6.  After every backward invocation the output gradient has the
    shape of [dY], and it already had it when the compute call was
    issued.  Rebuild events are logged only when the shape of [dY]
    differs from the cached one, and then (on a supported kind) the
    rebuild is entered; afterwards the cache holds the shape of [dY].
    The members left behind are the same whatever [X] and [Y] are. *)
Theorem backward_output_and_cache_follow_dY (X Y dY : Tensor) (s : State) :
  dims (Output0 (snd (CuDNNLRNGradientOp_RunOnDevice cudnn data_enforce X Y dY s))) =
    dims dY /\
  (forall c,
     In (Call c)
       (issued s (snd (CuDNNLRNGradientOp_RunOnDevice cudnn data_enforce X Y dY s))) ->
     is_compute (Call c) = true ->
     exists T s2,
       c = backward_call T X Y dY s2 /\
       dims (Output0 s2) = dims dY /\
       dims (pointee {| elem := T; pointee := mutable_data T (Output0 s2) |}) =
         dims dY) /\
  (forall e,
     In e (issued s (snd (CuDNNLRNGradientOp_RunOnDevice cudnn data_enforce X Y dY s))) ->
     is_set_layout e = true ->
     dims dY <> cudnn_input_dims_ (self s)) /\
  (supported (meta dY) = true ->
   dims dY <> cudnn_input_dims_ (self s) ->
   In (VLOG 1 "Setting descriptors")
     (issued s (snd (CuDNNLRNGradientOp_RunOnDevice cudnn data_enforce X Y dY s)))) /\
  (supported (meta dY) = true ->
   cudnn_input_dims_
     (self (snd (CuDNNLRNGradientOp_RunOnDevice cudnn data_enforce X Y dY s))) =
   dims dY) /\
  (forall X' Y',
     self (snd (CuDNNLRNGradientOp_RunOnDevice cudnn data_enforce X' Y' dY s)) =
     self (snd (CuDNNLRNGradientOp_RunOnDevice cudnn data_enforce X Y dY s))).
Proof.
  destruct (dispatched_type (meta dY)) as [T|] eqn:K.
  - rewrite !(backward_run_supported _ _ _ _ T K).
    pose proof (reshape_frame cudnn T dY (after_resize dY s)) as F.
    cbn zeta in F. destruct F as (Fc & _ & _ & _ & _ & _ & Fo & _).
    split; [rewrite finish_Output0_dims, Fo; reflexivity|].
    split; [|split; [|split; [|split]]].
    + intros c HIn Hc.
      destruct (finish_compute_issued cudnn _ _ _ _ s (after_resize dY s) c
                  eq_refl HIn Hc) as (s2 & R & _ & -> & _).
      rewrite R in Fo. cbn [snd] in Fo.
      exists T, s2. cbn. rewrite Fo. auto.
    + intros e HIn He Hit.
      destruct (finish_issued cudnn T dY
                  (data_enforce T Y && data_enforce T dY && data_enforce T X)
                  (backward_call T X Y dY) s (after_resize dY s) eq_refl)
        as (evs & _ & Hh & [I|(s2 & _ & _ & I)]);
        rewrite I, (Hh Hit) in HIn.
      * destruct HIn.
      * destruct HIn as [<-|[]]. discriminate He.
    + intros _ Miss.
      destruct (reshape_miss_logged cudnn T dY (after_resize dY s) Miss)
        as (evs & L).
      match goal with
      | |- In _ (issued s (snd (finish cudnn T ?g ?call ?p))) =>
          assert (exists pre, log (snd (finish cudnn T g call p)) =
                              pre ++ log (snd p)) as (pre & P)
      end.
      { unfold finish.
        destruct (reshape_descriptors cudnn T dY (after_resize dY s))
          as [[u|e] s2]; [|now exists []].
        destruct (_ && _); [now eexists [_]|now exists []]. }
      rewrite (issued_app s _ (pre ++ evs ++ [VLOG 1 "Setting descriptors"])).
      * apply in_or_app. right. apply in_or_app. right. left. reflexivity.
      * rewrite P, L. cbn. rewrite <- !app_assoc. reflexivity.
    + intros _. rewrite finish_self. exact Fc.
    + intros X' Y'. rewrite finish_self.
      rewrite (backward_self_independent X Y X' Y' dY s).
      rewrite (backward_run_supported _ _ _ _ T K), finish_self. reflexivity.
  - rewrite !backward_run_unsupported by exact K. cbn [snd].
    rewrite (issued_same_log s (after_resize dY s)) by reflexivity.
    split; [reflexivity|].
    split; [intros c []|]. split; [intros e []|].
    assert (U : supported (meta dY) = false)
      by (destruct (meta dY); try discriminate K; reflexivity).
    rewrite U.
    split; [discriminate|]. split; [discriminate|].
    intros X' Y'. rewrite backward_run_unsupported by exact K. reflexivity.
Qed.

Lemma rebuild_events_hold_no_compute (evs : list Event) :
  forallb is_set_layout evs = true -> filter is_compute evs = [].
Proof.
  induction evs as [|a evs IH]; [reflexivity|].
  cbn [forallb filter]. intros H. apply andb_prop in H. destruct H as [Ha H].
  rewrite (set_layout_not_compute a Ha). exact (IH H).
Qed.


End Backward.

(** ** Construction and the normalization parameters *)

Section Construction.

Variable cudnn : list Event -> cudnnCall -> cudnnStatus_t.
Variable data_enforce : CType -> Tensor -> bool.

(** A constructor that returns has read the four options, has had its
    three cuDNN calls accepted, and has set the LRN descriptor from the
    values read. *)
Lemma construct_ok (def : OperatorDef) (l l' : list Event) (m : Members) :
  construct cudnn def l = (Ok m, l') ->
  GetSingleArgument_int def "size" 0 = Ok (size_ m) /\
  GetSingleArgument_float def "alpha" float_0 = Ok (alpha_ m) /\
  GetSingleArgument_float def "beta" float_0 = Ok (beta_ m) /\
  GetSingleArgument_float def "bias" float_1 = Ok (bias_ m) /\
  norm_desc_ m =
    Some {| lrnN := to_unsigned (size_ m); lrnAlpha := alpha_ m;
            lrnBeta := beta_ m; lrnK := bias_ m |} /\
  data_desc_ m = None /\
  cudnn_input_dims_ m = [] /\
  l' = Call (cudnnSetLRNDescriptor
               (to_unsigned (size_ m)) (alpha_ m) (beta_ m) (bias_ m))
       :: Call cudnnCreateLRNDescriptor
       :: Call cudnnCreateTensorDescriptor :: l.
Proof.
  unfold construct, bind, lift_result, CUDNN_ENFORCE, ret.
  destruct (GetSingleArgument_int def "size" 0) as [size|]; [|discriminate].
  destruct (GetSingleArgument_float def "alpha" float_0) as [alpha|];
    [|discriminate].
  destruct (GetSingleArgument_float def "beta" float_0) as [beta|];
    [|discriminate].
  destruct (GetSingleArgument_float def "bias" float_1) as [bias|];
    [|discriminate].
  destruct (cudnn l cudnnCreateTensorDescriptor); try discriminate.
  destruct (cudnn _ cudnnCreateLRNDescriptor); try discriminate.
  destruct (cudnn _ (cudnnSetLRNDescriptor _ _ _ _)); try discriminate.
  intros E. injection E as <- <-. cbn. repeat split; reflexivity.
Qed.

(** A constructor whose four options can be read and whose three cuDNN
    calls are accepted returns, with the values read stored and the LRN
    descriptor set from them. *)
Lemma construct_succeeds
    (def : OperatorDef) (l : list Event) (size : Z) (alpha beta bias : float) :
  GetSingleArgument_int def "size" 0 = Ok size ->
  GetSingleArgument_float def "alpha" float_0 = Ok alpha ->
  GetSingleArgument_float def "beta" float_0 = Ok beta ->
  GetSingleArgument_float def "bias" float_1 = Ok bias ->
  cudnn l cudnnCreateTensorDescriptor = CUDNN_STATUS_SUCCESS ->
  cudnn (Call cudnnCreateTensorDescriptor :: l) cudnnCreateLRNDescriptor =
    CUDNN_STATUS_SUCCESS ->
  cudnn (Call cudnnCreateLRNDescriptor :: Call cudnnCreateTensorDescriptor :: l)
    (cudnnSetLRNDescriptor (to_unsigned size) alpha beta bias) =
    CUDNN_STATUS_SUCCESS ->
  construct cudnn def l =
  (Ok {| data_desc_ := None;
         norm_desc_ := Some {| lrnN := to_unsigned size; lrnAlpha := alpha;
                               lrnBeta := beta; lrnK := bias |};
         cudnn_input_dims_ := [];
         size_ := size; alpha_ := alpha; beta_ := beta; bias_ := bias |},
   Call (cudnnSetLRNDescriptor (to_unsigned size) alpha beta bias)
   :: Call cudnnCreateLRNDescriptor
   :: Call cudnnCreateTensorDescriptor :: l).
Proof.
  intros Hs Ha Hb Hk C1 C2 C3.
  unfold construct, bind, lift_result, CUDNN_ENFORCE, ret.
  rewrite Hs, Ha, Hb, Hk, C1, C2, C3. reflexivity.
Qed.

(** An option that is absent reads as its default. *)
Lemma absent_option_defaults (def : OperatorDef) (name : string) :
  find_arg def name = None ->
  (forall d, GetSingleArgument_int def name d = Ok d) /\
  (forall d, GetSingleArgument_float def name d = Ok d).
Proof.
  intros A. unfold GetSingleArgument_int, GetSingleArgument_float.
  rewrite A. split; reflexivity.
Qed.

(** The constructor looks at nothing but the four options. *)
Lemma construct_reads_four_options (def def' : OperatorDef) (l : list Event) :
  find_arg def "size" = find_arg def' "size" ->
  find_arg def "alpha" = find_arg def' "alpha" ->
  find_arg def "beta" = find_arg def' "beta" ->
  find_arg def "bias" = find_arg def' "bias" ->
  construct cudnn def l = construct cudnn def' l.
Proof.
  intros Hs Ha Hb Hk.
  unfold construct, GetSingleArgument_int, GetSingleArgument_float.
  rewrite Hs, Ha, Hb, Hk. reflexivity.
Qed.

Lemma set_layout_not_norm (e : Event) :
  is_set_layout e = true -> is_norm_descriptor_call e = false.
Proof. destruct e as [l m|c]; [reflexivity|]. destruct c; cbn; congruence. Qed.

(** A reshape followed by a compute call writes none of the four
    parameters, leaves the LRN descriptor alone and issues no call on it. *)
Lemma finish_parameters_frame
    (T : CType) (key : Tensor) (granted : bool) (call : State -> cudnnCall)
    (s0 s : State) :
  self s = self s0 -> log s = log s0 ->
  (forall s2, is_norm_descriptor_call (Call (call s2)) = false) ->
  let s' := snd (finish cudnn T granted call (reshape_descriptors cudnn T key s)) in
  size_ (self s') = size_ (self s0) /\
  alpha_ (self s') = alpha_ (self s0) /\
  beta_ (self s') = beta_ (self s0) /\
  bias_ (self s') = bias_ (self s0) /\
  norm_desc_ (self s') = norm_desc_ (self s0) /\
  forallb (fun e => negb (is_norm_descriptor_call e)) (issued s0 s') = true.
Proof.
  intros S L Hcall s'. subst s'. rewrite finish_self.
  pose proof (reshape_frame cudnn T key s) as F. cbn zeta in F.
  destruct F as (_ & Fn & Fs & Fa & Fb & Fk & _ & _).
  rewrite Fn, Fs, Fa, Fb, Fk, S.
  repeat (split; [reflexivity|]).
  assert (Hevs : forall evs, forallb is_set_layout evs = true ->
            forallb (fun e => negb (is_norm_descriptor_call e)) evs = true).
  { intros evs H. rewrite forallb_forall in *. intros e HIn.
    rewrite (set_layout_not_norm e (H e HIn)). reflexivity. }
  destruct (finish_issued cudnn T key granted call s0 s L)
    as (evs & Hs & _ & [I|(s2 & _ & _ & I)]); rewrite I.
  - apply Hevs, Hs.
  - cbn [forallb]. rewrite Hcall, (Hevs evs Hs). reflexivity.
Qed.

(** C8.  Both constructors read the four options "size", "alpha", "beta"
    and "bias" and nothing else, with the defaults 0, 0, 0 and 1; when
    the options can be read and cuDNN accepts the three calls they
    return, with the values stored and the LRN descriptor set from them
    by the one [cudnnSetLRNDescriptor] call of the constructor (on
    absent options: 0, 0, 0 and 1); and no invocation of either
    operator writes a parameter, changes the LRN descriptor or issues a
    call on it. *)
Theorem parameters_fixed_at_construction :
  (forall ctor : OperatorDef -> M (list Event) Members,
     In ctor [CuDNNLRNOp_new cudnn; CuDNNLRNGradientOp_new cudnn] ->
     (forall def l m l',
        ctor def l = (Ok m, l') ->
        GetSingleArgument_int def "size" 0 = Ok (size_ m) /\
        GetSingleArgument_float def "alpha" float_0 = Ok (alpha_ m) /\
        GetSingleArgument_float def "beta" float_0 = Ok (beta_ m) /\
        GetSingleArgument_float def "bias" float_1 = Ok (bias_ m) /\
        (find_arg def "size" = None -> size_ m = 0) /\
        (find_arg def "alpha" = None -> alpha_ m = float_0) /\
        (find_arg def "beta" = None -> beta_ m = float_0) /\
        (find_arg def "bias" = None -> bias_ m = float_1) /\
        norm_desc_ m =
          Some {| lrnN := to_unsigned (size_ m); lrnAlpha := alpha_ m;
                  lrnBeta := beta_ m; lrnK := bias_ m |} /\
        l' = Call (cudnnSetLRNDescriptor
                     (to_unsigned (size_ m)) (alpha_ m) (beta_ m) (bias_ m))
             :: Call cudnnCreateLRNDescriptor
             :: Call cudnnCreateTensorDescriptor :: l) /\
     (forall def def' l,
        find_arg def "size" = find_arg def' "size" ->
        find_arg def "alpha" = find_arg def' "alpha" ->
        find_arg def "beta" = find_arg def' "beta" ->
        find_arg def "bias" = find_arg def' "bias" ->
        ctor def l = ctor def' l) /\
     (forall def l size alpha beta bias,
        GetSingleArgument_int def "size" 0 = Ok size ->
        GetSingleArgument_float def "alpha" float_0 = Ok alpha ->
        GetSingleArgument_float def "beta" float_0 = Ok beta ->
        GetSingleArgument_float def "bias" float_1 = Ok bias ->
        cudnn l cudnnCreateTensorDescriptor = CUDNN_STATUS_SUCCESS ->
        cudnn (Call cudnnCreateTensorDescriptor :: l) cudnnCreateLRNDescriptor =
          CUDNN_STATUS_SUCCESS ->
        cudnn (Call cudnnCreateLRNDescriptor
               :: Call cudnnCreateTensorDescriptor :: l)
          (cudnnSetLRNDescriptor (to_unsigned size) alpha beta bias) =
          CUDNN_STATUS_SUCCESS ->
        ctor def l =
        (Ok {| data_desc_ := None;
               norm_desc_ :=
                 Some {| lrnN := to_unsigned size; lrnAlpha := alpha;
                         lrnBeta := beta; lrnK := bias |};
               cudnn_input_dims_ := [];
               size_ := size; alpha_ := alpha; beta_ := beta; bias_ := bias |},
         Call (cudnnSetLRNDescriptor (to_unsigned size) alpha beta bias)
         :: Call cudnnCreateLRNDescriptor
         :: Call cudnnCreateTensorDescriptor :: l)) /\
     (forall def l,
        find_arg def "size" = None ->
        find_arg def "alpha" = None ->
        find_arg def "beta" = None ->
        find_arg def "bias" = None ->
        cudnn l cudnnCreateTensorDescriptor = CUDNN_STATUS_SUCCESS ->
        cudnn (Call cudnnCreateTensorDescriptor :: l) cudnnCreateLRNDescriptor =
          CUDNN_STATUS_SUCCESS ->
        cudnn (Call cudnnCreateLRNDescriptor
               :: Call cudnnCreateTensorDescriptor :: l)
          (cudnnSetLRNDescriptor 0 float_0 float_0 float_1) =
          CUDNN_STATUS_SUCCESS ->
        ctor def l =
        (Ok {| data_desc_ := None;
               norm_desc_ :=
                 Some {| lrnN := 0; lrnAlpha := float_0;
                         lrnBeta := float_0; lrnK := float_1 |};
               cudnn_input_dims_ := [];
               size_ := 0; alpha_ := float_0; beta_ := float_0;
               bias_ := float_1 |},
         Call (cudnnSetLRNDescriptor 0 float_0 float_0 float_1)
         :: Call cudnnCreateLRNDescriptor
         :: Call cudnnCreateTensorDescriptor :: l))) /\
  (forall X s,
     let s' := snd (CuDNNLRNOp_RunOnDevice cudnn data_enforce X s) in
     size_ (self s') = size_ (self s) /\
     alpha_ (self s') = alpha_ (self s) /\
     beta_ (self s') = beta_ (self s) /\
     bias_ (self s') = bias_ (self s) /\
     norm_desc_ (self s') = norm_desc_ (self s) /\
     forallb (fun e => negb (is_norm_descriptor_call e)) (issued s s') = true) /\
  (forall X Y dY s,
     let s' := snd (CuDNNLRNGradientOp_RunOnDevice cudnn data_enforce X Y dY s) in
     size_ (self s') = size_ (self s) /\
     alpha_ (self s') = alpha_ (self s) /\
     beta_ (self s') = beta_ (self s) /\
     bias_ (self s') = bias_ (self s) /\
     norm_desc_ (self s') = norm_desc_ (self s) /\
     forallb (fun e => negb (is_norm_descriptor_call e)) (issued s s') = true).
Proof.
  split; [|split].
  - intros ctor HIn.
    assert (E : ctor = construct cudnn)
      by (destruct HIn as [<-|[<-|[]]]; reflexivity).
    subst ctor. split.
    + intros def l m l' C.
      destruct (construct_ok def l l' m C)
        as (Hs & Ha & Hb & Hk & Hn & _ & _ & Hl).
      repeat (split; [assumption|]).
      unfold GetSingleArgument_int, GetSingleArgument_float in Hs, Ha, Hb, Hk.
      repeat split; try assumption; intros A.
      * rewrite A in Hs. congruence.
      * rewrite A in Ha. congruence.
      * rewrite A in Hb. congruence.
      * rewrite A in Hk. congruence.
    + split; [apply construct_reads_four_options|].
      split; [apply construct_succeeds|].
      intros def l As Aa Ab Ak.
      apply (construct_succeeds def l 0 float_0 float_0 float_1).
      * apply (absent_option_defaults def "size" As).
      * apply (absent_option_defaults def "alpha" Aa).
      * apply (absent_option_defaults def "beta" Ab).
      * apply (absent_option_defaults def "bias" Ak).
  - intros X s. unfold CuDNNLRNOp_RunOnDevice. rewrite forward_dispatch_eq.
    destruct (meta X);
      try (cbn zeta; cbn [snd];
           rewrite (issued_same_log s (after_resize X s)) by reflexivity;
           repeat split; reflexivity);
      rewrite forward_DoRunWithType_finish;
      apply finish_parameters_frame; reflexivity.
  - intros X Y dY s. unfold CuDNNLRNGradientOp_RunOnDevice.
    rewrite backward_dispatch_eq.
    destruct (meta dY);
      try (cbn zeta; cbn [snd];
           rewrite (issued_same_log s (after_resize dY s)) by reflexivity;
           repeat split; reflexivity);
      rewrite backward_DoRunWithType_finish;
      apply finish_parameters_frame; reflexivity.
Qed.

End Construction.

(** ** The properties at work *)

(** The constructor on [lrn_def]. *)
Example construct_lrn_def :
  construct cudnn_accepts lrn_def [] = (Ok lrn_members, lrn_construction_log).
Proof. reflexivity. Qed.

(** A batch of shape (2,8,4,4) on the fresh operator: the descriptor is
    set, then the compute call is issued; the output has the shape and the
    kind of the input. *)
Example forward_batch_2_8_4_4 :
  fst (CuDNNLRNOp_RunOnDevice cudnn_accepts data_checked batch_2_8_4_4 lrn_started) =
    Ok true /\
  Output0 lrn_after_batch = batch_2_8_4_4 /\
  issued lrn_started lrn_after_batch =
    [Call lrn_first_call;
     Call (cudnnSetTensor4dDescriptor CUDNN_TENSOR_NCHW CUDNN_DATA_FLOAT 2 8 4 4);
     VLOG 1 "Setting descriptors"].
Proof. repeat split. Qed.

(** The same shape again is a cache hit; another shape is a miss. *)
Example forward_again_hits :
  map is_set_layout
    (issued lrn_after_batch
       (snd (CuDNNLRNOp_RunOnDevice cudnn_accepts data_checked batch_2_8_4_4
               lrn_after_batch))) = [false].
Proof. reflexivity. Qed.

Example forward_other_shape_misses :
  map is_set_layout
    (issued lrn_after_batch
       (snd (CuDNNLRNOp_RunOnDevice cudnn_accepts data_checked batch_4_8_4_4
               lrn_after_batch))) = [false; true; true].
Proof. reflexivity. Qed.

(** A half-precision input goes through the half-precision instance. *)
Example forward_half_1_4_2_2 :
  CuDNNLRNOp_RunOnDevice cudnn_accepts data_checked half_1_4_2_2 lrn_started =
  CuDNNLRNOp_DoRunWithType cudnn_accepts data_checked c_float16 c_float
    half_1_4_2_2 (after_resize half_1_4_2_2 lrn_started) /\
  fst (CuDNNLRNOp_RunOnDevice cudnn_accepts data_checked half_1_4_2_2 lrn_started) =
    Ok true /\
  Output0 (snd (CuDNNLRNOp_RunOnDevice cudnn_accepts data_checked half_1_4_2_2
                  lrn_started)) = half_1_4_2_2.
Proof. repeat split. Qed.

(** The shape is cached before the descriptor call is made.  When cuDNN
    refuses that call the invocation throws with the new shape cached,
    and an invocation on the same shape afterwards is a cache hit: it
    issues the compute call on the descriptor as the refused call left
    it. *)
Example refused_rebuild_leaves_cache_ahead :
  let s1 :=
    snd (CuDNNLRNOp_RunOnDevice cudnn_sized data_checked batch_2_8_4_4 lrn_started) in
  let r2 := CuDNNLRNOp_RunOnDevice cudnn_sized data_checked empty_0_8_4_4 s1 in
  let r3 := CuDNNLRNOp_RunOnDevice cudnn_sized data_checked empty_0_8_4_4 (snd r2) in
  fst r2 = Throw (Cudnn_failure CUDNN_STATUS_BAD_PARAM) /\
  cudnn_input_dims_ (self (snd r2)) = [0; 8; 4; 4] /\
  issued (snd r2) (snd r3) =
    [Call (cudnnLRNCrossChannelForward
             (norm_desc_ lrn_members) CUDNN_LRN_CROSS_CHANNEL_DIM1
             (kOne c_float) (data_desc_ (self (snd r2)))
             {| elem := c_float; pointee := empty_0_8_4_4 |}
             (kZero c_float) (data_desc_ (self (snd r2)))
             {| elem := c_float; pointee := empty_0_8_4_4 |})].
Proof. repeat split. Qed.

(** Under a framework that checks the element kind on every typed read,
    a backward invocation whose [X] is of another kind than [dY] stops at
    the read. *)
Example backward_checked_read_refused :
  fst (CuDNNLRNGradientOp_RunOnDevice cudnn_accepts data_checked
         ints_2_8_4_4 half_2_8_4_4 half_2_8_4_4 lrn_started) =
  Throw (Enforce_failure "data").
Proof. reflexivity. Qed.

(** The first invocation on the fresh operator is a miss: the descriptor
    is rebuilt from (2,8,4,4) before the call. *)
Lemma compute_call_sees_current_shape_witness :
  exists T s2,
    dispatched_type (meta batch_2_8_4_4) = Some T /\
    reshape_descriptors cudnn_accepts T batch_2_8_4_4
      (after_resize batch_2_8_4_4 lrn_started) = (Ok tt, s2) /\
    lrn_first_call = forward_call T batch_2_8_4_4 s2 /\
    log (snd (CuDNNLRNOp_RunOnDevice cudnn_accepts data_checked batch_2_8_4_4
                lrn_started)) = Call lrn_first_call :: log s2 /\
    fresh_at_call T batch_2_8_4_4 (after_resize batch_2_8_4_4 lrn_started) s2.
Proof.
  apply (proj1 (compute_call_sees_current_shape cudnn_accepts data_checked)).
  - vm_compute. left. reflexivity.
  - reflexivity.
Defined.

(** A freshly constructed operator fed a rank-0 single-precision input:
    the empty shape equals the initial cache, nothing is rebuilt, and the
    compute call is issued on a layout descriptor that was never set. *)
Lemma scalar_input_reaches_compute_with_unset_descriptor :
  construct cudnn_accepts lrn_def [] = (Ok lrn_members, lrn_construction_log) /\
  CuDNNLRNOp_RunOnDevice cudnn_accepts data_checked scalar_float lrn_started =
    (Ok true,
     {| self := lrn_members;
        Output0 := scalar_float;
        log :=
          Call (cudnnLRNCrossChannelForward
                  (norm_desc_ lrn_members) CUDNN_LRN_CROSS_CHANNEL_DIM1
                  (kOne c_float) None {| elem := c_float; pointee := scalar_float |}
                  (kZero c_float) None {| elem := c_float; pointee := scalar_float |})
          :: lrn_construction_log |}) /\
  data_desc_ lrn_members = None /\
  desc_reflects None (dims scalar_float) = false.
Proof. repeat split. Qed.

(** (2,8,4,4) twice in a row. *)
Lemma same_shape_twice_no_rebuild_witness :
  forallb (fun e => negb (is_set_layout e))
    (issued lrn_after_batch
       (snd (CuDNNLRNOp_RunOnDevice cudnn_accepts data_checked batch_2_8_4_4
               lrn_after_batch))) = true.
Proof.
  apply (proj1 (same_shape_twice_no_rebuild cudnn_accepts data_checked)
           batch_2_8_4_4 batch_2_8_4_4 lrn_started lrn_after_batch);
    reflexivity.
Defined.

(** 32-bit integers on the fresh operator. *)
Lemma unsupported_kind_throws_after_resize_witness :
  CuDNNLRNOp_RunOnDevice cudnn_accepts data_checked ints_2_8_4_4 lrn_started =
  (Throw Unsupported_input_type,
   {| self := lrn_members;
      Output0 := {| dims := [2; 8; 4; 4]; meta := TM_uninitialized |};
      log := lrn_construction_log |}).
Proof.
  apply (unsupported_kind_throws_after_resize cudnn_accepts data_checked
           ints_2_8_4_4 lrn_started).
  reflexivity.
Defined.

(** An input of 32-bit integers on the fresh operator: the unsupported-type
    error is thrown, and the output blob, which had the empty shape, now
    has the shape of the input. *)
Lemma unsupported_kind_resizes_output :
  fst (CuDNNLRNOp_RunOnDevice cudnn_accepts data_checked ints_2_8_4_4 lrn_started) =
    Throw Unsupported_input_type /\
  dims (Output0 lrn_started) = [] /\
  dims (Output0 (snd (CuDNNLRNOp_RunOnDevice cudnn_accepts data_checked
                        ints_2_8_4_4 lrn_started))) = [2; 8; 4; 4] /\
  snd (CuDNNLRNOp_RunOnDevice cudnn_accepts data_checked ints_2_8_4_4 lrn_started)
    <> lrn_started.
Proof. repeat split. discriminate. Qed.

(** The output of the first invocation. *)
Lemma forward_output_has_input_shape_witness :
  dims (Output0 lrn_after_batch) = [2; 8; 4; 4].
Proof.
  exact (proj1 (forward_output_has_input_shape cudnn_accepts data_checked
                  batch_2_8_4_4 lrn_started eq_refl eq_refl eq_refl)).
Defined.

(** Single precision, then half precision at the same shape: the second
    call pairs half-precision pointers with a single-precision
    descriptor. *)
Lemma same_shape_other_kind_keeps_descriptor_witness :
  exists d,
    data_desc_
      (self (snd (CuDNNLRNOp_RunOnDevice cudnn_accepts data_checked half_2_8_4_4
                    lrn_after_batch))) = Some d /\
    td_dataType d = CUDNN_DATA_FLOAT /\
    td_dataType d <> CUDNN_DATA_HALF /\
    forall c,
      In (Call c)
        (issued lrn_after_batch
           (snd (CuDNNLRNOp_RunOnDevice cudnn_accepts data_checked half_2_8_4_4
                   lrn_after_batch))) ->
      c = cudnnLRNCrossChannelForward
            (norm_desc_ (self lrn_after_batch)) CUDNN_LRN_CROSS_CHANNEL_DIM1
            (kOne c_float16) (Some d)
            {| elem := c_float16; pointee := half_2_8_4_4 |}
            (kZero c_float16) (Some d)
            {| elem := c_float16;
               pointee := mutable_data c_float16
                            (ResizeLike (Output0 lrn_after_batch) half_2_8_4_4) |}.
Proof.
  refine (proj2 (proj2 (same_shape_other_kind_keeps_descriptor
                          cudnn_accepts data_checked
                          batch_2_8_4_4 half_2_8_4_4 lrn_started lrn_after_batch
                          c_float c_float16 eq_refl eq_refl _ eq_refl eq_refl))
            _ eq_refl); discriminate.
Defined.



(** Both constructors on [lrn_def], under a cuDNN that accepts every
    call: they return, with the window of five stored, the other
    parameters at their defaults, and the LRN descriptor set from them. *)
Lemma parameters_fixed_at_construction_witness :
  CuDNNLRNOp_new cudnn_accepts lrn_def [] = (Ok lrn_members, lrn_construction_log) /\
  CuDNNLRNGradientOp_new cudnn_accepts lrn_def [] =
    (Ok lrn_members, lrn_construction_log).
Proof.
  split.
  - refine (proj1 (proj2 (proj2
              (proj1 (parameters_fixed_at_construction cudnn_accepts data_checked)
                 (CuDNNLRNOp_new cudnn_accepts) (or_introl eq_refl))))
              lrn_def [] 5 float_0 float_0 float_1 _ _ _ _ _ _ _); reflexivity.
  - refine (proj1 (proj2 (proj2
              (proj1 (parameters_fixed_at_construction cudnn_accepts data_checked)
                 (CuDNNLRNGradientOp_new cudnn_accepts)
                 (or_intror (or_introl eq_refl)))))
              lrn_def [] 5 float_0 float_0 float_1 _ _ _ _ _ _ _); reflexivity.
Defined.

(** ** Further properties: the life of the descriptors *)

Section Lifecycle.

Variable cudnn : list Event -> cudnnCall -> cudnnStatus_t.

(** X1.  A constructor that throws either failed to read one of the four
    options, and then no cuDNN call was made, or was refused a cuDNN call,
    and then it stopped there: the log holds the calls up to the refused
    one, in the order create tensor descriptor, create LRN descriptor, set
    LRN descriptor, and no call that destroys what was created. *)
Theorem construct_stops_at_first_failure
    (def : OperatorDef) (l l' : list Event) (e : Exception) :
  construct cudnn def l = (Throw e, l') ->
  (l' = l /\
   (GetSingleArgument_int def "size" 0 = Throw e \/
    GetSingleArgument_float def "alpha" float_0 = Throw e \/
    GetSingleArgument_float def "beta" float_0 = Throw e \/
    GetSingleArgument_float def "bias" float_1 = Throw e)) \/
  (exists st, e = Cudnn_failure st /\ st <> CUDNN_STATUS_SUCCESS /\
     ((l' = Call cudnnCreateTensorDescriptor :: l /\
       cudnn l cudnnCreateTensorDescriptor = st) \/
      (l' = Call cudnnCreateLRNDescriptor
            :: Call cudnnCreateTensorDescriptor :: l /\
       cudnn l cudnnCreateTensorDescriptor = CUDNN_STATUS_SUCCESS /\
       cudnn (Call cudnnCreateTensorDescriptor :: l) cudnnCreateLRNDescriptor = st) \/
      (exists size alpha beta bias,
         GetSingleArgument_int def "size" 0 = Ok size /\
         GetSingleArgument_float def "alpha" float_0 = Ok alpha /\
         GetSingleArgument_float def "beta" float_0 = Ok beta /\
         GetSingleArgument_float def "bias" float_1 = Ok bias /\
         l' = Call (cudnnSetLRNDescriptor (to_unsigned size) alpha beta bias)
              :: Call cudnnCreateLRNDescriptor
              :: Call cudnnCreateTensorDescriptor :: l /\
         cudnn (Call cudnnCreateLRNDescriptor
                :: Call cudnnCreateTensorDescriptor :: l)
           (cudnnSetLRNDescriptor (to_unsigned size) alpha beta bias) = st))).
Proof.
  unfold construct, bind, lift_result, CUDNN_ENFORCE, ret.
  destruct (GetSingleArgument_int def "size" 0) as [size|e0];
    [|intros E; injection E as <- <-; left; auto].
  destruct (GetSingleArgument_float def "alpha" float_0) as [alpha|e0];
    [|intros E; injection E as <- <-; left; auto].
  destruct (GetSingleArgument_float def "beta" float_0) as [beta|e0];
    [|intros E; injection E as <- <-; left; auto].
  destruct (GetSingleArgument_float def "bias" float_1) as [bias|e0];
    [|intros E; injection E as <- <-; left; auto 6].
  destruct (cudnn l cudnnCreateTensorDescriptor) eqn:C1;
    try (intros E; injection E as <- <-; right; eexists;
         split; [reflexivity|]; split; [discriminate|]; left; auto).
  destruct (cudnn _ cudnnCreateLRNDescriptor) eqn:C2;
    try (intros E; injection E as <- <-; right; eexists;
         split; [reflexivity|]; split; [discriminate|]; right; left; auto).
  destruct (cudnn _ (cudnnSetLRNDescriptor _ _ _ _)) eqn:C3;
    try discriminate;
    intros E; injection E as <- <-; right; eexists;
    (split; [reflexivity|]); (split; [discriminate|]); right; right;
    exists size, alpha, beta, bias; auto 10.
Qed.

(** X2.  The destructors destroy the tensor descriptor first.  When cuDNN
    refuses that call the program is terminated there, with the LRN
    descriptor never destroyed; otherwise both destroy calls are made, in
    that order, and the destructor completes exactly when the second is
    accepted too (the program is terminated otherwise). *)
Theorem destroy_stops_at_first_failure (l : list Event) :
  (cudnn l cudnnDestroyTensorDescriptor <> CUDNN_STATUS_SUCCESS ->
   destroy cudnn l =
     (Terminated (Cudnn_failure (cudnn l cudnnDestroyTensorDescriptor)),
      Call cudnnDestroyTensorDescriptor :: l)) /\
  (cudnn l cudnnDestroyTensorDescriptor = CUDNN_STATUS_SUCCESS ->
   snd (destroy cudnn l) =
     Call cudnnDestroyLRNDescriptor :: Call cudnnDestroyTensorDescriptor :: l /\
   (fst (destroy cudnn l) = Released <->
    cudnn (Call cudnnDestroyTensorDescriptor :: l) cudnnDestroyLRNDescriptor =
      CUDNN_STATUS_SUCCESS) /\
   (fst (destroy cudnn l) <> Released ->
    fst (destroy cudnn l) =
      Terminated
        (Cudnn_failure
           (cudnn (Call cudnnDestroyTensorDescriptor :: l)
              cudnnDestroyLRNDescriptor)))) /\
  (In (Call cudnnDestroyLRNDescriptor)
     (firstn (List.length (snd (destroy cudnn l)) - List.length l)
        (snd (destroy cudnn l))) <->
   cudnn l cudnnDestroyTensorDescriptor = CUDNN_STATUS_SUCCESS).
Proof.
  unfold destroy, bind, CUDNN_ENFORCE.
  assert (L1 : forall (a : Event),
            (List.length (a :: l) - List.length l)%nat = 1%nat)
    by (intros; cbn [List.length]; lia).
  assert (L2 : forall (a b : Event),
            (List.length (a :: b :: l) - List.length l)%nat = 2%nat)
    by (intros; cbn [List.length]; lia).
  destruct (cudnn l cudnnDestroyTensorDescriptor) eqn:D1.
  1: { split; [intros N; now destruct N|]. split.
       - intros _.
         destruct (cudnn _ cudnnDestroyLRNDescriptor); cbn;
           (split; [reflexivity|]);
           (split; [split; congruence|]);
           intros N; try reflexivity; now destruct N.
       - destruct (cudnn _ cudnnDestroyLRNDescriptor); cbn [snd];
           rewrite L2; cbn; split; auto. }
  all: split; [intros _; reflexivity|];
    (split; [intros E; discriminate E|]);
    cbn [snd]; rewrite L1; cbn;
    split; [intros [E|[]]; discriminate E | discriminate].
Qed.

End Lifecycle.

(** ** Further properties: invocations *)

Section Invocations.

Variable cudnn : list Event -> cudnnCall -> cudnnStatus_t.
Variable data_enforce : CType -> Tensor -> bool.

Lemma forward_run_supported (X : Tensor) (s : State) (T : CType) :
  dispatched_type (meta X) = Some T ->
  CuDNNLRNOp_RunOnDevice cudnn data_enforce X s =
  finish cudnn T (data_enforce T X) (forward_call T X)
    (reshape_descriptors cudnn T X (after_resize X s)).
Proof.
  intros K. unfold CuDNNLRNOp_RunOnDevice. rewrite forward_dispatch_eq.
  destruct (meta X); try discriminate K; injection K as <-;
    apply forward_DoRunWithType_finish.
Qed.

Lemma forward_run_unsupported (X : Tensor) (s : State) :
  dispatched_type (meta X) = None ->
  CuDNNLRNOp_RunOnDevice cudnn data_enforce X s =
  (Throw Unsupported_input_type, after_resize X s).
Proof.
  intros K. unfold CuDNNLRNOp_RunOnDevice. rewrite forward_dispatch_eq.
  destruct (meta X); try discriminate K; reflexivity.
Qed.

Lemma dispatched_supported (k : TypeMeta) :
  dispatched_type k = None <-> supported k = false.
Proof. destruct k; cbn; split; congruence. Qed.

Lemma unsupported_iff_neither (k : TypeMeta) :
  supported k = false <-> k <> TM_float /\ k <> TM_float16.
Proof.
  destruct k; cbn; split; try congruence; try (intros _; split; discriminate);
    intros [N1 N2]; congruence.
Qed.

(** The events of a reshape: none, the log line alone, or the log line
    followed by the one descriptor call. *)
Lemma reshape_events (T : CType) (X : Tensor) (s : State) :
  exists evs,
    log (snd (reshape_descriptors cudnn T X s)) = evs ++ log s /\
    (evs = [] \/
     evs = [VLOG 1 "Setting descriptors"] \/
     exists N C H W,
       evs = [Call (cudnnSetTensor4dDescriptor CUDNN_TENSOR_NCHW
                      (cudnnTypeWrapper_type T) N C H W);
              VLOG 1 "Setting descriptors"]) /\
    (dims X = cudnn_input_dims_ (self s) -> evs = []).
Proof.
  run_unfold. cbn.
  destruct (list_eq_dec Z.eq_dec _ _) as [E|NE]; cbn.
  - exists []. auto.
  - repeat case_step;
      first [ exists [VLOG 1 "Setting descriptors"];
              split; [reflexivity|]; split; [auto|contradiction]
            | eexists [Call _; VLOG 1 "Setting descriptors"];
              split; [reflexivity|]; split; [|contradiction];
              right; right; eexists _, _, _, _; reflexivity ].
Qed.

(** The events after the reshape: nothing, or the one compute call. *)
Lemma finish_events
    (T : CType) (granted : bool) (call : State -> cudnnCall)
    (p : Result unit * State) :
  exists pre,
    log (snd (finish cudnn T granted call p)) = pre ++ log (snd p) /\
    (pre = [] \/ pre = [Call (call (snd p))]).
Proof.
  unfold finish. destruct p as [[u|e] s2]; [|exists []; auto].
  destruct granted.
  - exists [Call (call s2)]. split; [reflexivity|right; reflexivity].
  - exists []. auto.
Qed.

(** The events of a whole run. *)
Lemma run_events
    (T : CType) (key : Tensor) (granted : bool) (call : State -> cudnnCall)
    (s0 s : State) :
  log s = log s0 ->
  exists pre evs,
    issued s0 (snd (finish cudnn T granted call
                      (reshape_descriptors cudnn T key s))) = pre ++ evs /\
    (pre = [] \/ exists s2, pre = [Call (call s2)]) /\
    (evs = [] \/
     evs = [VLOG 1 "Setting descriptors"] \/
     exists N C H W,
       evs = [Call (cudnnSetTensor4dDescriptor CUDNN_TENSOR_NCHW
                      (cudnnTypeWrapper_type T) N C H W);
              VLOG 1 "Setting descriptors"]) /\
    (dims key = cudnn_input_dims_ (self s) -> evs = []).
Proof.
  intros L.
  destruct (reshape_events T key s) as (evs & Hl & Hs & Hh).
  destruct (finish_events T granted call (reshape_descriptors cudnn T key s))
    as (pre & Hp & Hc).
  exists pre, evs. split; [|split; [|split; assumption]].
  - apply issued_app. rewrite Hp, Hl, L, app_assoc. reflexivity.
  - destruct Hc as [->| ->]; [left; reflexivity|right; eexists; reflexivity].
Qed.

(** X3.  On a cache hit an invocation writes no member of the operator
    and logs at most one event, the compute call; this holds for the
    forward operator on [K] and for the backward operator on [dY = K],
    whatever the element kind. *)
Theorem cache_hit_leaves_operator_untouched (K X Y : Tensor) (s : State) :
  dims K = cudnn_input_dims_ (self s) ->
  (self (snd (CuDNNLRNOp_RunOnDevice cudnn data_enforce K s)) = self s /\
   (List.length (issued s (snd (CuDNNLRNOp_RunOnDevice cudnn data_enforce K s)))
      <= 1)%nat /\
   forallb is_compute
     (issued s (snd (CuDNNLRNOp_RunOnDevice cudnn data_enforce K s))) = true) /\
  (self (snd (CuDNNLRNGradientOp_RunOnDevice cudnn data_enforce X Y K s)) = self s /\
   (List.length
      (issued s (snd (CuDNNLRNGradientOp_RunOnDevice cudnn data_enforce X Y K s)))
      <= 1)%nat /\
   forallb is_compute
     (issued s (snd (CuDNNLRNGradientOp_RunOnDevice cudnn data_enforce X Y K s))) =
     true).
Proof.
  intros Hit.
  assert (R : forall T, reshape_descriptors cudnn T K (after_resize K s) =
                        (Ok tt, after_resize K s))
    by (intros T; apply reshape_hit; exact Hit).
  assert (G : forall T granted call,
            (forall s2, is_compute (Call (call s2)) = true) ->
            let s' := snd (finish cudnn T granted call (Ok tt, after_resize K s)) in
            self s' = self s /\ (List.length (issued s s') <= 1)%nat /\
            forallb is_compute (issued s s') = true).
  { intros T granted call Hc. cbn zeta. rewrite finish_self.
    split; [reflexivity|].
    unfold finish. destruct granted; cbn [snd].
    - rewrite (issued_app s _ [Call (call (after_resize K s))]) by reflexivity.
      cbn [List.length forallb]. rewrite Hc. auto.
    - rewrite (issued_same_log s (after_resize K s)) by reflexivity. cbn. auto. }
  split.
  - destruct (dispatched_type (meta K)) as [T|] eqn:D.
    + rewrite (forward_run_supported K s T D), R. apply G. reflexivity.
    + rewrite (forward_run_unsupported K s D). cbn [snd].
      rewrite (issued_same_log s (after_resize K s)) by reflexivity. cbn. auto.
  - destruct (dispatched_type (meta K)) as [T|] eqn:D.
    + rewrite (backward_run_supported cudnn data_enforce X Y K s T D), R.
      apply G. reflexivity.
    + rewrite (backward_run_unsupported cudnn data_enforce X Y K s D). cbn [snd].
      rewrite (issued_same_log s (after_resize K s)) by reflexivity. cbn. auto.
Qed.

(** X4.  An invocation of either operator logs at most one call that sets
    the layout descriptor and at most one compute call, never creates or
    destroys a descriptor, and logs nothing else but the "Setting
    descriptors" line. *)
Theorem invocation_calls_are_bounded (K X Y : Tensor) (s : State) :
  (let evs := issued s (snd (CuDNNLRNOp_RunOnDevice cudnn data_enforce K s)) in
   (List.length (filter is_set_tensor_call evs) <= 1)%nat /\
   (List.length (filter is_compute evs) <= 1)%nat /\
   forallb (fun e => negb (is_lifecycle_call e)) evs = true /\
   forallb (fun e => is_compute e || is_set_layout e) evs = true) /\
  (let evs :=
     issued s (snd (CuDNNLRNGradientOp_RunOnDevice cudnn data_enforce X Y K s)) in
   (List.length (filter is_set_tensor_call evs) <= 1)%nat /\
   (List.length (filter is_compute evs) <= 1)%nat /\
   forallb (fun e => negb (is_lifecycle_call e)) evs = true /\
   forallb (fun e => is_compute e || is_set_layout e) evs = true).
Proof.
  assert (G : forall T granted call s1,
            log s1 = log s ->
            (forall s2, is_compute (Call (call s2)) = true /\
                        is_set_tensor_call (Call (call s2)) = false /\
                        is_lifecycle_call (Call (call s2)) = false) ->
            let evs := issued s (snd (finish cudnn T granted call
                                        (reshape_descriptors cudnn T K s1))) in
            (List.length (filter is_set_tensor_call evs) <= 1)%nat /\
            (List.length (filter is_compute evs) <= 1)%nat /\
            forallb (fun e => negb (is_lifecycle_call e)) evs = true /\
            forallb (fun e => is_compute e || is_set_layout e) evs = true).
  { intros T granted call s1 L Hc. cbn zeta.
    destruct (run_events T K granted call s s1 L)
      as (pre & evs & -> & [->|(s2 & ->)] & [->|[->|(N & C & H & W & ->)]] & _);
      try destruct (Hc s2) as (H1 & H2 & H3);
      cbn [app filter forallb];
      rewrite ?H1, ?H2, ?H3;
      cbn; repeat split; auto. }
  split.
  - destruct (dispatched_type (meta K)) as [T|] eqn:D.
    + rewrite (forward_run_supported K s T D). apply G; [reflexivity|].
      intros s2. repeat split.
    + rewrite (forward_run_unsupported K s D). cbn zeta. cbn [snd].
      rewrite (issued_same_log s (after_resize K s)) by reflexivity.
      cbn. auto.
  - destruct (dispatched_type (meta K)) as [T|] eqn:D.
    + rewrite (backward_run_supported cudnn data_enforce X Y K s T D).
      apply G; [reflexivity|]. intros s2. repeat split.
    + rewrite (backward_run_unsupported cudnn data_enforce X Y K s D).
      cbn zeta. cbn [snd].
      rewrite (issued_same_log s (after_resize K s)) by reflexivity.
      cbn. auto.
Qed.

End Invocations.

(** ** Further properties: the cache and the descriptor together *)

Section Coherence.

Variable cudnn : list Event -> cudnnCall -> cudnnStatus_t.
Variable data_enforce : CType -> Tensor -> bool.

(** A reshape that throws was a miss. *)
Lemma reshape_throw_miss (T : CType) (X : Tensor) (s : State) (e : Exception) :
  fst (reshape_descriptors cudnn T X s) = Throw e ->
  dims X <> cudnn_input_dims_ (self s).
Proof.
  intros R E. rewrite (reshape_hit cudnn T X s E) in R. discriminate R.
Qed.

Lemma reflects_coherent (m : Members) :
  desc_reflects (data_desc_ m) (cudnn_input_dims_ m) = true ->
  cache_coherent m = true.
Proof.
  unfold cache_coherent.
  destruct (cudnn_input_dims_ m), (data_desc_ m); auto.
Qed.

Lemma coherent_reflects (m : Members) :
  cache_coherent m = true ->
  cudnn_input_dims_ m <> [] ->
  desc_reflects (data_desc_ m) (cudnn_input_dims_ m) = true.
Proof.
  unfold cache_coherent.
  destruct (cudnn_input_dims_ m), (data_desc_ m); auto; congruence.
Qed.

(** A reshape that returns keeps the cache and the descriptor coherent. *)
Lemma reshape_keeps_coherent (T : CType) (X : Tensor) (s s2 : State) :
  reshape_descriptors cudnn T X s = (Ok tt, s2) ->
  cache_coherent (self s) = true ->
  cache_coherent (self s2) = true.
Proof.
  intros R Co. destruct (reshape_fresh cudnn T X s s2 R) as (Hc & _ & Hh & Hd).
  destruct (list_eq_dec Z.eq_dec (dims X) (cudnn_input_dims_ (self s))) as [E|NE].
  - rewrite (Hh E). exact Co.
  - apply reflects_coherent. rewrite Hc. apply Hd. left. exact NE.
Qed.

(** X5.  The shape is cached before the sizes are read and the descriptor
    is set.  When the reshape of a forward invocation throws, the
    invocation throws the same exception, without a compute call, with
    the new shape already cached; any later invocation on an input of
    that shape then writes no member and rebuilds nothing (the rebuild
    that failed is not tried again), and if it issues the compute call it
    passes the layout descriptor in whatever state the failed invocation
    left it. *)
Theorem failed_reshape_leaves_cache_ahead
    (X : Tensor) (s : State) (T : CType) (e : Exception) :
  dispatched_type (meta X) = Some T ->
  fst (reshape_descriptors cudnn T X (after_resize X s)) = Throw e ->
  fst (CuDNNLRNOp_RunOnDevice cudnn data_enforce X s) = Throw e /\
  dims X <> cudnn_input_dims_ (self s) /\
  cudnn_input_dims_ (self (snd (CuDNNLRNOp_RunOnDevice cudnn data_enforce X s))) =
    dims X /\
  filter is_compute
    (issued s (snd (CuDNNLRNOp_RunOnDevice cudnn data_enforce X s))) = [] /\
  forall (X2 : Tensor) (s2 : State),
    self s2 = self (snd (CuDNNLRNOp_RunOnDevice cudnn data_enforce X s)) ->
    dims X2 = dims X ->
    self (snd (CuDNNLRNOp_RunOnDevice cudnn data_enforce X2 s2)) = self s2 /\
    forallb (fun ev => negb (is_set_layout ev))
      (issued s2 (snd (CuDNNLRNOp_RunOnDevice cudnn data_enforce X2 s2))) = true /\
    forall c,
      In (Call c)
        (issued s2 (snd (CuDNNLRNOp_RunOnDevice cudnn data_enforce X2 s2))) ->
      exists T2,
        c = cudnnLRNCrossChannelForward
              (norm_desc_ (self s2)) CUDNN_LRN_CROSS_CHANNEL_DIM1
              (kOne T2) (data_desc_ (self s2)) {| elem := T2; pointee := X2 |}
              (kZero T2) (data_desc_ (self s2))
              {| elem := T2;
                 pointee := mutable_data T2 (ResizeLike (Output0 s2) X2) |}.
Proof.
  intros K R.
  pose proof (reshape_throw_miss T X (after_resize X s) e R) as Miss.
  pose proof (reshape_frame cudnn T X (after_resize X s)) as F. cbn zeta in F.
  destruct F as (Fc & _ & _ & _ & _ & _ & _ & evs & Hl & Hs & _).
  assert (E1 : CuDNNLRNOp_RunOnDevice cudnn data_enforce X s =
               (Throw e, snd (reshape_descriptors cudnn T X (after_resize X s)))).
  { rewrite (forward_run_supported cudnn data_enforce X s T K).
    destruct (reshape_descriptors cudnn T X (after_resize X s)) as [[u|e'] s1];
      cbn [fst] in R; [discriminate R|]. injection R as ->. reflexivity. }
  rewrite E1. cbn [fst snd].
  split; [reflexivity|]. split; [exact Miss|]. split; [exact Fc|].
  split.
  { rewrite (issued_app s _ evs) by exact Hl.
    apply rebuild_events_hold_no_compute. exact Hs. }
  intros X2 s2 S2 D2.
  assert (Hit : dims X2 = cudnn_input_dims_ (self s2))
    by (rewrite S2, D2, Fc; reflexivity).
  destruct (dispatched_type (meta X2)) as [T2|] eqn:K2.
  - rewrite (forward_run_supported cudnn data_enforce X2 s2 T2 K2).
    rewrite (reshape_hit cudnn T2 X2 (after_resize X2 s2) Hit).
    rewrite finish_self. cbn [snd after_resize self].
    split; [reflexivity|].
    unfold finish. destruct (data_enforce T2 X2); cbn [snd].
    + rewrite (issued_app s2 _ [Call (forward_call T2 X2 (after_resize X2 s2))])
        by reflexivity.
      split; [reflexivity|].
      intros c [E|[]]. injection E as <-. exists T2. reflexivity.
    + rewrite (issued_same_log s2 (after_resize X2 s2)) by reflexivity.
      split; [reflexivity|]. intros c [].
  - rewrite (forward_run_unsupported cudnn data_enforce X2 s2 K2). cbn [snd].
    rewrite (issued_same_log s2 (after_resize X2 s2)) by reflexivity.
    split; [reflexivity|]. split; [reflexivity|]. intros c [].
Qed.

(** X6.  The constructors leave the cache and the layout descriptor
    coherent (nothing cached, descriptor unset), and every invocation of
    either operator that returns keeps them coherent. *)
Theorem coherence_is_invariant :
  (forall def l m l',
     construct cudnn def l = (Ok m, l') -> cache_coherent m = true) /\
  (forall X s,
     cache_coherent (self s) = true ->
     fst (CuDNNLRNOp_RunOnDevice cudnn data_enforce X s) = Ok true ->
     cache_coherent (self (snd (CuDNNLRNOp_RunOnDevice cudnn data_enforce X s))) =
       true) /\
  (forall X Y dY s,
     cache_coherent (self s) = true ->
     fst (CuDNNLRNGradientOp_RunOnDevice cudnn data_enforce X Y dY s) = Ok true ->
     cache_coherent
       (self (snd (CuDNNLRNGradientOp_RunOnDevice cudnn data_enforce X Y dY s))) =
       true).
Proof.
  assert (G : forall T key granted call s1,
            cache_coherent (self s1) = true ->
            fst (finish cudnn T granted call
                   (reshape_descriptors cudnn T key s1)) = Ok true ->
            cache_coherent
              (self (snd (finish cudnn T granted call
                            (reshape_descriptors cudnn T key s1)))) = true).
  { intros T key granted call s1 Co. rewrite finish_self.
    destruct (reshape_descriptors cudnn T key s1) as [[[]|e] s2] eqn:R;
      cbn [finish fst snd]; [|discriminate].
    intros _. exact (reshape_keeps_coherent T key s1 s2 R Co). }
  split; [|split].
  - intros def l m l' C.
    destruct (construct_ok cudnn def l l' m C) as (_ & _ & _ & _ & _ & Hd & Hc & _).
    unfold cache_coherent. rewrite Hd, Hc. reflexivity.
  - intros X s Co.
    destruct (dispatched_type (meta X)) as [T|] eqn:K.
    + rewrite (forward_run_supported cudnn data_enforce X s T K).
      apply G. exact Co.
    + rewrite (forward_run_unsupported cudnn data_enforce X s K). discriminate.
  - intros X Y dY s Co.
    destruct (dispatched_type (meta dY)) as [T|] eqn:K.
    + rewrite (backward_run_supported cudnn data_enforce X Y dY s T K).
      apply G. exact Co.
    + rewrite (backward_run_unsupported cudnn data_enforce X Y dY s K).
      discriminate.
Qed.

(** X7.  From a coherent operator, every compute call issued on an input
    whose shape is not empty is handed, for all its tensors, a layout
    descriptor that holds the first four sizes of that input ([X] in the
    forward operator, [dY] in the backward one). *)
Theorem coherent_operator_describes_input :
  (forall X s c,
     cache_coherent (self s) = true ->
     dims X <> [] ->
     In (Call c) (issued s (snd (CuDNNLRNOp_RunOnDevice cudnn data_enforce X s))) ->
     is_compute (Call c) = true ->
     exists T d x y,
       c = cudnnLRNCrossChannelForward
             (norm_desc_ (self s)) CUDNN_LRN_CROSS_CHANNEL_DIM1
             (kOne T) d x (kZero T) d y /\
       desc_reflects d (dims X) = true) /\
  (forall X Y dY s c,
     cache_coherent (self s) = true ->
     dims dY <> [] ->
     In (Call c)
       (issued s (snd (CuDNNLRNGradientOp_RunOnDevice cudnn data_enforce X Y dY s))) ->
     is_compute (Call c) = true ->
     exists T d y dy x dx,
       c = cudnnLRNCrossChannelBackward
             (norm_desc_ (self s)) CUDNN_LRN_CROSS_CHANNEL_DIM1
             (kOne T) d y d dy d x (kZero T) d dx /\
       desc_reflects d (dims dY) = true).
Proof.
  assert (G : forall T key s2 s,
            cache_coherent (self s) = true ->
            dims key <> [] ->
            reshape_descriptors cudnn T key (after_resize key s) = (Ok tt, s2) ->
            norm_desc_ (self s2) = norm_desc_ (self s) /\
            desc_reflects (data_desc_ (self s2)) (dims key) = true).
  { intros T key s2 s Co NE R.
    pose proof (reshape_frame cudnn T key (after_resize key s)) as F.
    cbn zeta in F. rewrite R in F. cbn [snd] in F.
    destruct F as (_ & Fn & _).
    split; [exact Fn|].
    destruct (reshape_fresh cudnn T key _ s2 R) as (_ & _ & _ & Hd).
    apply Hd. cbn [after_resize self].
    destruct (list_eq_dec Z.eq_dec (dims key) (cudnn_input_dims_ (self s)))
      as [E|N]; [right|left; exact N].
    apply coherent_reflects; [exact Co|]. rewrite <- E. exact NE. }
  split.
  - intros X s c Co NE HIn Hc.
    destruct (dispatched_type (meta X)) as [T|] eqn:K.
    + rewrite (forward_run_supported cudnn data_enforce X s T K) in HIn.
      destruct (finish_compute_issued cudnn _ _ _ _ s (after_resize X s) c
                  eq_refl HIn Hc) as (s2 & R & _ & -> & _).
      destruct (G T X s2 s Co NE R) as (Fn & Fd).
      eexists T, _, _, _. unfold forward_call. rewrite Fn.
      split; [reflexivity|exact Fd].
    + rewrite (forward_run_unsupported cudnn data_enforce X s K) in HIn.
      cbn [snd] in HIn.
      rewrite (issued_same_log s (after_resize X s)) in HIn by reflexivity.
      destruct HIn.
  - intros X Y dY s c Co NE HIn Hc.
    destruct (dispatched_type (meta dY)) as [T|] eqn:K.
    + rewrite (backward_run_supported cudnn data_enforce X Y dY s T K) in HIn.
      destruct (finish_compute_issued cudnn _ _ _ _ s (after_resize dY s) c
                  eq_refl HIn Hc) as (s2 & R & _ & -> & _).
      destruct (G T dY s2 s Co NE R) as (Fn & Fd).
      eexists T, _, _, _, _, _. unfold backward_call. rewrite Fn.
      split; [reflexivity|exact Fd].
    + rewrite (backward_run_unsupported cudnn data_enforce X Y dY s K) in HIn.
      cbn [snd] in HIn.
      rewrite (issued_same_log s (after_resize dY s)) in HIn by reflexivity.
      destruct HIn.
Qed.

End Coherence.

(** ** Further properties: the backward dispatch, ranks and outcomes *)

Section Outcomes.

Variable cudnn : list Event -> cudnnCall -> cudnnStatus_t.
Variable data_enforce : CType -> Tensor -> bool.

(** X8.  The backward operator throws the unsupported-type error exactly
    when the element kind of [dY] is neither single-precision nor
    half-precision float, whatever the kinds of [X] and [Y]. *)
Theorem backward_unsupported_error_iff (X Y dY : Tensor) (s : State) :
  fst (CuDNNLRNGradientOp_RunOnDevice cudnn data_enforce X Y dY s) =
    Throw Unsupported_input_type
  <-> meta dY <> TM_float /\ meta dY <> TM_float16.
Proof.
  rewrite <- unsupported_iff_neither, <- dispatched_supported.
  destruct (dispatched_type (meta dY)) as [T|] eqn:K.
  - rewrite (backward_run_supported cudnn data_enforce X Y dY s T K).
    split; [|discriminate].
    intros E. apply finish_not_unsupported in E. destruct E.
  - rewrite (backward_run_unsupported cudnn data_enforce X Y dY s K).
    split; reflexivity.
Qed.

(** X9.  On a [dY] of an unsupported kind the backward operator throws
    with no member written and nothing logged; by then it has resized the
    output gradient like [dY]. *)
Theorem backward_unsupported_kind_throws_after_resize
    (X Y dY : Tensor) (s : State) :
  supported (meta dY) = false ->
  CuDNNLRNGradientOp_RunOnDevice cudnn data_enforce X Y dY s =
  (Throw Unsupported_input_type,
   {| self := self s;
      Output0 := {| dims := dims dY; meta := meta (Output0 s) |};
      log := log s |}).
Proof.
  intros K. apply dispatched_supported in K.
  rewrite (backward_run_unsupported cudnn data_enforce X Y dY s K). reflexivity.
Qed.

(** X10.  When a backward invocation on a supported kind of [dY] is
    followed by a backward invocation whose [dY] has the same shape, the
    second one logs no rebuild event and leaves the layout descriptor as
    it found it, whatever the element kind of the second [dY]. *)
Theorem backward_same_shape_twice_no_rebuild
    (X1 Y1 dY1 X2 Y2 dY2 : Tensor) (s s1 : State) :
  supported (meta dY1) = true ->
  dims dY2 = dims dY1 ->
  self s1 =
    self (snd (CuDNNLRNGradientOp_RunOnDevice cudnn data_enforce X1 Y1 dY1 s)) ->
  forallb (fun e => negb (is_set_layout e))
    (issued s1
       (snd (CuDNNLRNGradientOp_RunOnDevice cudnn data_enforce X2 Y2 dY2 s1))) =
    true /\
  data_desc_
    (self (snd (CuDNNLRNGradientOp_RunOnDevice cudnn data_enforce X2 Y2 dY2 s1))) =
    data_desc_ (self s1).
Proof.
  intros K D S.
  assert (Hit : dims dY2 = cudnn_input_dims_ (self s1)).
  { rewrite S, D. destruct (supported_dispatched _ K) as (T & KT).
    rewrite (backward_run_supported cudnn data_enforce X1 Y1 dY1 s T KT).
    rewrite finish_self. symmetry. apply reshape_frame. }
  destruct (dispatched_type (meta dY2)) as [T2|] eqn:K2.
  - rewrite (backward_run_supported cudnn data_enforce X2 Y2 dY2 s1 T2 K2).
    rewrite (reshape_hit cudnn T2 dY2 (after_resize dY2 s1) Hit).
    rewrite finish_self. split; [|reflexivity].
    unfold finish. destruct (_ && _); cbn [snd].
    + rewrite (issued_app s1 _
                 [Call (backward_call T2 X2 Y2 dY2 (after_resize dY2 s1))])
        by reflexivity.
      reflexivity.
    + rewrite (issued_same_log s1 (after_resize dY2 s1)) by reflexivity.
      reflexivity.
  - rewrite (backward_run_unsupported cudnn data_enforce X2 Y2 dY2 s1 K2).
    cbn [snd].
    rewrite (issued_same_log s1 (after_resize dY2 s1)) by reflexivity.
    split; reflexivity.
Qed.

Lemma dim32_firstn (X X' : Tensor) (i : nat) :
  firstn 4 (dims X) = firstn 4 (dims X') ->
  (i < 4)%nat ->
  dim32 X i = dim32 X' i.
Proof.
  intros F Hi. unfold dim32.
  assert (E : nth_error (dims X) i = nth_error (dims X') i).
  { pose proof (nth_error_firstn 4 (dims X) i) as A.
    pose proof (nth_error_firstn 4 (dims X') i) as B.
    apply Nat.ltb_lt in Hi. rewrite Hi in A, B. rewrite <- A, <- B, F.
    reflexivity. }
  rewrite E. reflexivity.
Qed.

(** X11.  The rank of the input is not examined: sizes past the fourth
    never reach cuDNN.  Two inputs of one element kind that share their
    first four sizes and both miss the cache log the same rebuild events
    and leave the same layout descriptor, while each leaves its own full
    shape in the cache. *)
Theorem sizes_past_the_fourth_are_ignored (X X' : Tensor) (s : State) :
  meta X = meta X' ->
  firstn 4 (dims X) = firstn 4 (dims X') ->
  dims X <> cudnn_input_dims_ (self s) ->
  dims X' <> cudnn_input_dims_ (self s) ->
  data_desc_ (self (snd (CuDNNLRNOp_RunOnDevice cudnn data_enforce X s))) =
    data_desc_ (self (snd (CuDNNLRNOp_RunOnDevice cudnn data_enforce X' s))) /\
  filter is_set_layout
    (issued s (snd (CuDNNLRNOp_RunOnDevice cudnn data_enforce X s))) =
  filter is_set_layout
    (issued s (snd (CuDNNLRNOp_RunOnDevice cudnn data_enforce X' s))) /\
  (supported (meta X) = true ->
   cudnn_input_dims_ (self (snd (CuDNNLRNOp_RunOnDevice cudnn data_enforce X s))) =
     dims X /\
   cudnn_input_dims_ (self (snd (CuDNNLRNOp_RunOnDevice cudnn data_enforce X' s))) =
     dims X').
Proof.
  intros Km F NE NE'.
  destruct (dispatched_type (meta X)) as [T|] eqn:K.
  - assert (K' : dispatched_type (meta X') = Some T) by (rewrite <- Km; exact K).
    rewrite (forward_run_supported cudnn data_enforce X s T K).
    rewrite (forward_run_supported cudnn data_enforce X' s T K').
    rewrite !finish_self.
    assert (R : data_desc_ (self (snd (reshape_descriptors cudnn T X
                                         (after_resize X s)))) =
                data_desc_ (self (snd (reshape_descriptors cudnn T X'
                                         (after_resize X' s)))) /\
                exists evs,
                  log (snd (reshape_descriptors cudnn T X (after_resize X s))) =
                    evs ++ log s /\
                  log (snd (reshape_descriptors cudnn T X' (after_resize X' s))) =
                    evs ++ log s /\
                  forallb is_set_layout evs = true).
    { run_unfold. cbn.
      destruct (list_eq_dec Z.eq_dec (dims X) _); [contradiction|].
      destruct (list_eq_dec Z.eq_dec (dims X') _); [contradiction|]. cbn.
      rewrite <- (dim32_firstn X X' 0 F), <- (dim32_firstn X X' 1 F),
        <- (dim32_firstn X X' 2 F), <- (dim32_firstn X X' 3 F) by lia.
      repeat case_step; (split; [reflexivity|]);
        first [ exists [VLOG 1 "Setting descriptors"]; now auto
              | eexists [Call _; VLOG 1 "Setting descriptors"]; now auto ]. }
    destruct R as (Rd & evs & L & L' & Hs).
    split; [exact Rd|]. split.
    + assert (Q : forall g call (p : Result unit * State),
                log (snd p) = evs ++ log s ->
                (forall s2, is_set_layout (Call (call s2)) = false) ->
                filter is_set_layout (issued s (snd (finish cudnn T g call p))) =
                evs).
      { intros g call p Lp Hc.
        destruct (finish_events cudnn T g call p) as (pre & Hp & [->| ->]).
        - rewrite (issued_app s _ evs) by (rewrite Hp, Lp; reflexivity).
          clear - Hs. induction evs as [|a evs IH]; [reflexivity|].
          cbn in Hs |- *. apply andb_prop in Hs. destruct Hs as [Ha Hs].
          rewrite Ha, (IH Hs). reflexivity.
        - rewrite (issued_app s _ (Call (call (snd p)) :: evs))
            by (rewrite Hp, Lp; reflexivity).
          cbn [filter]. rewrite Hc.
          clear - Hs. induction evs as [|a evs IH]; [reflexivity|].
          cbn in Hs |- *. apply andb_prop in Hs. destruct Hs as [Ha Hs].
          rewrite Ha, (IH Hs). reflexivity. }
      rewrite (Q _ _ _ L) by reflexivity.
      rewrite (Q _ _ _ L') by reflexivity. reflexivity.
    + intros _. split; apply reshape_frame.
  - assert (K' : dispatched_type (meta X') = None) by (rewrite <- Km; exact K).
    rewrite (forward_run_unsupported cudnn data_enforce X s K).
    rewrite (forward_run_unsupported cudnn data_enforce X' s K').
    cbn [snd after_resize self].
    rewrite (issued_same_log s (after_resize X s)) by reflexivity.
    rewrite (issued_same_log s (after_resize X' s)) by reflexivity.
    split; [reflexivity|]. split; [reflexivity|].
    apply dispatched_supported in K. rewrite K. discriminate.
Qed.

(** X12.  Neither [RunOnDevice] ever returns [false]: an invocation
    returns [true] or throws. *)
Theorem RunOnDevice_never_returns_false :
  (forall X s,
     fst (CuDNNLRNOp_RunOnDevice cudnn data_enforce X s) <> Ok false) /\
  (forall X Y dY s,
     fst (CuDNNLRNGradientOp_RunOnDevice cudnn data_enforce X Y dY s) <> Ok false).
Proof.
  assert (G : forall T granted call p,
            fst (finish cudnn T granted call p) <> Ok false).
  { intros T granted call [[u|e] s2]; cbn; [|discriminate].
    destruct granted; cbn; [|discriminate].
    destruct (cudnn _ _); discriminate. }
  split.
  - intros X s. destruct (dispatched_type (meta X)) as [T|] eqn:K.
    + rewrite (forward_run_supported cudnn data_enforce X s T K). apply G.
    + rewrite (forward_run_unsupported cudnn data_enforce X s K). discriminate.
  - intros X Y dY s. destruct (dispatched_type (meta dY)) as [T|] eqn:K.
    + rewrite (backward_run_supported cudnn data_enforce X Y dY s T K). apply G.
    + rewrite (backward_run_unsupported cudnn data_enforce X Y dY s K).
      discriminate.
Qed.

(** X13.  A forward invocation returns exactly when the element kind is
    supported, the reshape does not throw, the typed read of [X] is
    granted and cuDNN accepts the compute call issued from the state the
    reshape left; a backward invocation likewise, on the kind of [dY] and
    with the three typed reads of [Y], [dY] and [X]. *)
Theorem RunOnDevice_returns_iff :
  (forall X s,
     fst (CuDNNLRNOp_RunOnDevice cudnn data_enforce X s) = Ok true <->
     exists T s2,
       dispatched_type (meta X) = Some T /\
       reshape_descriptors cudnn T X (after_resize X s) = (Ok tt, s2) /\
       data_enforce T X = true /\
       cudnn (log s2) (forward_call T X s2) = CUDNN_STATUS_SUCCESS) /\
  (forall X Y dY s,
     fst (CuDNNLRNGradientOp_RunOnDevice cudnn data_enforce X Y dY s) = Ok true <->
     exists T s2,
       dispatched_type (meta dY) = Some T /\
       reshape_descriptors cudnn T dY (after_resize dY s) = (Ok tt, s2) /\
       (data_enforce T Y = true /\ data_enforce T dY = true /\
        data_enforce T X = true) /\
       cudnn (log s2) (backward_call T X Y dY s2) = CUDNN_STATUS_SUCCESS).
Proof.
  assert (G : forall T granted call (p : Result unit * State),
            fst (finish cudnn T granted call p) = Ok true <->
            exists s2, p = (Ok tt, s2) /\ granted = true /\
                       cudnn (log s2) (call s2) = CUDNN_STATUS_SUCCESS).
  { intros T granted call [[[]|e] s2]; cbn.
    - destruct granted; cbn.
      + destruct (cudnn (log s2) (call s2)) eqn:C; cbn; split;
          try discriminate; try (intros _; exists s2; now auto);
          intros (s3 & E & _ & C'); injection E as <-; congruence.
      + split; [discriminate|]. intros (s3 & _ & E & _). discriminate E.
    - split; [discriminate|]. intros (s3 & E & _). discriminate E. }
  split.
  - intros X s. destruct (dispatched_type (meta X)) as [T|] eqn:K.
    + rewrite (forward_run_supported cudnn data_enforce X s T K), G. split.
      * intros (s2 & R & Gr & C). exists T, s2. auto.
      * intros (T' & s2 & E & R & Gr & C). injection E as <-. exists s2. auto.
    + rewrite (forward_run_unsupported cudnn data_enforce X s K).
      split; [discriminate|]. intros (T' & s2 & E & _). discriminate E.
  - intros X Y dY s. destruct (dispatched_type (meta dY)) as [T|] eqn:K.
    + rewrite (backward_run_supported cudnn data_enforce X Y dY s T K), G. split.
      * intros (s2 & R & Gr & C). exists T, s2.
        apply andb_prop in Gr. destruct Gr as [Gr GX].
        apply andb_prop in Gr. destruct Gr as [GY GdY]. auto 6.
      * intros (T' & s2 & E & R & (GY & GdY & GX) & C). injection E as <-.
        exists s2. rewrite GY, GdY, GX. auto.
    + rewrite (backward_run_unsupported cudnn data_enforce X Y dY s K).
      split; [discriminate|]. intros (T' & s2 & E & _). discriminate E.
Qed.

End Outcomes.

(** ** The further properties at work *)

(** A cuDNN that cannot create LRN descriptors: construction stops at the
    second call. *)
Lemma construct_stops_at_first_failure_witness :
  ([Call cudnnCreateLRNDescriptor; Call cudnnCreateTensorDescriptor] = [] /\
   (GetSingleArgument_int lrn_def "size" 0 =
      Throw (Cudnn_failure CUDNN_STATUS_ALLOC_FAILED) \/
    GetSingleArgument_float lrn_def "alpha" float_0 =
      Throw (Cudnn_failure CUDNN_STATUS_ALLOC_FAILED) \/
    GetSingleArgument_float lrn_def "beta" float_0 =
      Throw (Cudnn_failure CUDNN_STATUS_ALLOC_FAILED) \/
    GetSingleArgument_float lrn_def "bias" float_1 =
      Throw (Cudnn_failure CUDNN_STATUS_ALLOC_FAILED))) \/
  (exists st,
     Cudnn_failure CUDNN_STATUS_ALLOC_FAILED = Cudnn_failure st /\
     st <> CUDNN_STATUS_SUCCESS /\
     (([Call cudnnCreateLRNDescriptor; Call cudnnCreateTensorDescriptor] =
         [Call cudnnCreateTensorDescriptor] /\
       cudnn_no_lrn [] cudnnCreateTensorDescriptor = st) \/
      ([Call cudnnCreateLRNDescriptor; Call cudnnCreateTensorDescriptor] =
         [Call cudnnCreateLRNDescriptor; Call cudnnCreateTensorDescriptor] /\
       cudnn_no_lrn [] cudnnCreateTensorDescriptor = CUDNN_STATUS_SUCCESS /\
       cudnn_no_lrn [Call cudnnCreateTensorDescriptor] cudnnCreateLRNDescriptor =
         st) \/
      (exists size alpha beta bias,
         GetSingleArgument_int lrn_def "size" 0 = Ok size /\
         GetSingleArgument_float lrn_def "alpha" float_0 = Ok alpha /\
         GetSingleArgument_float lrn_def "beta" float_0 = Ok beta /\
         GetSingleArgument_float lrn_def "bias" float_1 = Ok bias /\
         [Call cudnnCreateLRNDescriptor; Call cudnnCreateTensorDescriptor] =
           [Call (cudnnSetLRNDescriptor (to_unsigned size) alpha beta bias);
            Call cudnnCreateLRNDescriptor; Call cudnnCreateTensorDescriptor] /\
         cudnn_no_lrn
           [Call cudnnCreateLRNDescriptor; Call cudnnCreateTensorDescriptor]
           (cudnnSetLRNDescriptor (to_unsigned size) alpha beta bias) = st))).
Proof.
  apply (construct_stops_at_first_failure cudnn_no_lrn lrn_def []).
  reflexivity.
Defined.

(** The batch of shape (2,8,4,4) a second time: the members are the ones
    the first invocation left. *)
Lemma cache_hit_leaves_operator_untouched_witness :
  self (snd (CuDNNLRNOp_RunOnDevice cudnn_accepts data_checked batch_2_8_4_4
               lrn_after_batch)) = self lrn_after_batch.
Proof.
  exact (proj1 (proj1 (cache_hit_leaves_operator_untouched
                         cudnn_accepts data_checked
                         batch_2_8_4_4 batch_2_8_4_4 batch_2_8_4_4
                         lrn_after_batch eq_refl))).
Defined.

(** An empty batch after the batch of shape (2,8,4,4), under a cuDNN that
    refuses a descriptor with a zero size: the invocation throws with
    (0,8,4,4) cached and no compute call made. *)
Lemma failed_reshape_leaves_cache_ahead_witness :
  fst (CuDNNLRNOp_RunOnDevice cudnn_sized data_checked empty_0_8_4_4
         lrn_after_batch) = Throw (Cudnn_failure CUDNN_STATUS_BAD_PARAM) /\
  dims empty_0_8_4_4 <> cudnn_input_dims_ (self lrn_after_batch) /\
  cudnn_input_dims_
    (self (snd (CuDNNLRNOp_RunOnDevice cudnn_sized data_checked empty_0_8_4_4
                  lrn_after_batch))) = dims empty_0_8_4_4 /\
  filter is_compute
    (issued lrn_after_batch
       (snd (CuDNNLRNOp_RunOnDevice cudnn_sized data_checked empty_0_8_4_4
               lrn_after_batch))) = [].
Proof.
  pose proof (failed_reshape_leaves_cache_ahead cudnn_sized data_checked
                empty_0_8_4_4 lrn_after_batch c_float
                (Cudnn_failure CUDNN_STATUS_BAD_PARAM) eq_refl eq_refl)
    as (H1 & H2 & H3 & H4 & _).
  exact (conj H1 (conj H2 (conj H3 H4))).
Defined.

(** A gradient of 32-bit integers on the fresh backward operator. *)
Lemma backward_unsupported_kind_throws_after_resize_witness :
  CuDNNLRNGradientOp_RunOnDevice cudnn_accepts data_checked
    batch_2_8_4_4 batch_2_8_4_4 ints_2_8_4_4 lrn_started =
  (Throw Unsupported_input_type,
   {| self := lrn_members;
      Output0 := {| dims := [2; 8; 4; 4]; meta := TM_uninitialized |};
      log := lrn_construction_log |}).
Proof.
  apply (backward_unsupported_kind_throws_after_resize cudnn_accepts data_checked
           batch_2_8_4_4 batch_2_8_4_4 ints_2_8_4_4 lrn_started).
  reflexivity.
Defined.

(** A half-precision gradient of shape (2,8,4,4) twice in a row. *)
Lemma backward_same_shape_twice_no_rebuild_witness :
  forallb (fun e => negb (is_set_layout e))
    (issued
       (snd (CuDNNLRNGradientOp_RunOnDevice cudnn_accepts data_checked
               half_2_8_4_4 half_2_8_4_4 half_2_8_4_4 lrn_started))
       (snd (CuDNNLRNGradientOp_RunOnDevice cudnn_accepts data_checked
               half_2_8_4_4 half_2_8_4_4 half_2_8_4_4
               (snd (CuDNNLRNGradientOp_RunOnDevice cudnn_accepts data_checked
                       half_2_8_4_4 half_2_8_4_4 half_2_8_4_4 lrn_started))))) =
  true.
Proof.
  exact (proj1 (backward_same_shape_twice_no_rebuild cudnn_accepts data_checked
                  half_2_8_4_4 half_2_8_4_4 half_2_8_4_4
                  half_2_8_4_4 half_2_8_4_4 half_2_8_4_4
                  lrn_started _ eq_refl eq_refl eq_refl)).
Defined.

(** Shapes (2,8,4,4,3) and (2,8,4,4,7): one descriptor, two caches. *)
Lemma sizes_past_the_fourth_are_ignored_witness :
  data_desc_
    (self (snd (CuDNNLRNOp_RunOnDevice cudnn_accepts data_checked video_2_8_4_4_3
                  lrn_started))) =
  data_desc_
    (self (snd (CuDNNLRNOp_RunOnDevice cudnn_accepts data_checked video_2_8_4_4_7
                  lrn_started))) /\
  cudnn_input_dims_
    (self (snd (CuDNNLRNOp_RunOnDevice cudnn_accepts data_checked video_2_8_4_4_3
                  lrn_started))) = [2; 8; 4; 4; 3] /\
  cudnn_input_dims_
    (self (snd (CuDNNLRNOp_RunOnDevice cudnn_accepts data_checked video_2_8_4_4_7
                  lrn_started))) = [2; 8; 4; 4; 7].
Proof.
  assert (N3 : dims video_2_8_4_4_3 <> cudnn_input_dims_ (self lrn_started))
    by discriminate.
  assert (N7 : dims video_2_8_4_4_7 <> cudnn_input_dims_ (self lrn_started))
    by discriminate.
  pose proof (sizes_past_the_fourth_are_ignored cudnn_accepts data_checked
                video_2_8_4_4_3 video_2_8_4_4_7 lrn_started
                eq_refl eq_refl N3 N7) as (H1 & _ & H3).
  exact (conj H1 (H3 eq_refl)).
Defined.
